(** * radem-examples: the Extract stage and the notebooks' ingest and
      persist cells

    The repository is three Jupyter notebooks.  Its own logic is the
    function [extract_and_process_files] of the IREM notebook and the
    order in which the cells call the [radem.handlers] library.  This file
    embeds the Python of those cells: the [str] and [pathlib] operations
    they use, the directory traversal, the per-file decompression loop and
    the persist-and-reload cells. *)

From Stdlib Require Import ZArith Ascii String List Lia Bool.
From stdpp Require Import base option list sorting gmap strings.

Local Open Scope string_scope.
Local Open Scope Z_scope.

(** ** Python [str] methods used by the notebook *)

Module PyStr.

(** [s.rfind(c)] for a one-character [c]: the highest index at which [c]
    occurs, [-1] when it does not occur. *)
Fixpoint rfind (c : ascii) (s : string) : Z :=
  match s with
  | EmptyString => -1
  | String a s' =>
      let r := rfind c s' in
      if 0 <=? r then r + 1
      else if Ascii.eqb a c then 0 else -1
  end.

(** [len(s)] as a Python int. *)
Definition len (s : string) : Z := Z.of_nat (String.length s).

(** [s[:i]] for [0 <= i]. *)
Definition slice_to (i : Z) (s : string) : string :=
  String.substring 0 (Z.to_nat i) s.

(** [s[i:]] for [0 <= i]. *)
Definition slice_from (i : Z) (s : string) : string :=
  String.substring (Z.to_nat i) (String.length s - Z.to_nat i) s.

(** [s.endswith(suffix)]. *)
Definition endswith (s suffix : string) : bool :=
  let n := String.length s in
  let k := String.length suffix in
  (k <=? n)%nat &&
  String.eqb (String.substring (n - k) k s) suffix.

End PyStr.

(** ** Comparison of Python lists *)

Module PyList.

(** [p < q], [p == q] or [p > q] for two lists: the first index at which
    they differ decides; a proper prefix is smaller. *)
Fixpoint compare {A : Type} (cmp : A -> A -> comparison) (p q : list A)
    : comparison :=
  match p, q with
  | [], [] => Eq
  | [], _ :: _ => Lt
  | _ :: _, [] => Gt
  | a :: p', b :: q' =>
      match cmp a b with
      | Eq => compare cmp p' q'
      | c => c
      end
  end.

End PyList.

(** ** [pathlib.PurePosixPath], as its tuple of parts *)

Module PurePath.
Import PyStr.

(** A path is the list of its components, [Path("a/b/c").parts]. *)
Definition path : Type := list string.

(** [p / child] for a single component [child] (a name returned by
    [os.listdir] holds no separator). *)
Definition truediv (p : path) (child : string) : path := (p ++ [child])%list.

(** [p.name]: the final component, [''] when there is none. *)
Definition name (p : path) : string := List.last p "".

(** [p.suffix] (CPython 3.13, the kernel recorded in the notebooks):
<<
    i = name.rfind('.')
    if 0 < i < len(name) - 1: return name[i:]
    else: return ''
>> *)
Definition suffix (p : path) : string :=
  let nm := name p in
  let i := rfind "." nm in
  if (0 <? i) && (i <? len nm - 1) then slice_from i nm else "".

(** [p.stem]:
<<
    i = name.rfind('.')
    if 0 < i < len(name) - 1: return name[:i]
    else: return name
>> *)
Definition stem (p : path) : string :=
  let nm := name p in
  let i := rfind "." nm in
  if (0 <? i) && (i <? len nm - 1) then slice_to i nm else nm.

(** [str(p)]. *)
Definition str (p : path) : string := String.concat "/" p.

(** Python compares two paths as it compares the lists of their parts,
    each part as a [str], by code point. *)
Definition compare (p q : path) : comparison :=
  PyList.compare String.compare p q.

(** [p < q] *)
Definition ltb (p q : path) : bool :=
  match compare p q with Lt => true | _ => false end.

(** [p <= q] as a relation, for stating sortedness. *)
Definition le (p q : path) : Prop := compare p q <> Gt.

End PurePath.

(** ** The builtin [sorted] on a list of paths *)

Module Builtins.
Import PurePath.

(** [sorted] is stable and only ever asks [y < x].  A stable sort has a
    single possible result, so the insertion below computes what Timsort
    returns: [x] is put in front of the first [y] of the sorted rest for
    which [y < x] fails. *)
Fixpoint insert_sorted (x : path) (l : list path) : list path :=
  match l with
  | [] => [x]
  | y :: l' => if ltb y x then y :: insert_sorted x l' else x :: y :: l'
  end.

Definition sorted (l : list path) : list path :=
  foldr insert_sorted [] l.

End Builtins.

(** ** The Extract stage: [extract_and_process_files] *)

Module Extract.
Import PyStr PurePath Builtins.

Definition bytes : Type := list Byte.byte.

(** What [data_raw_dir] holds: regular files and directories.  The order
    of the entries of a directory is the order in which [os.listdir]
    happens to return them. *)
Local Unset Elimination Schemes.
Inductive node : Type :=
| File (content : bytes)
| Dir (entries : list (string * node)).
Local Set Elimination Schemes.

Inductive exn : Type :=
| NotADirectoryError (p : path)
| IsADirectoryError (p : path)
| FileNotFoundError (p : path)
| BadGzipFile (p : path).

Inductive outcome : Type :=
| Returned
| Raised (e : exn).

(** The two [print] calls of the loop body. *)
Inductive line : Type :=
| Extracting (filename output_filename : path)
| Overriding (filename : path).

Definition render (l : line) : string :=
  match l with
  | Extracting f o => "Extracting " +:+ str f +:+ " to " +:+ str o
  | Overriding f => "Overriding " +:+ str f +:+ " - already exists."
  end.

(** The part of the world the function changes: the files of
    [data_extracted_dir], by name, and what has been printed.  The raw
    tree is only read; the two directories are distinct siblings
    ([DATA_DIR / "raw"] and [DATA_DIR / "extracted"]). *)
Record state : Type := State {
  extracted : gmap string bytes;
  stdout : list line
}.

Definition print (st : state) (l : line) : state :=
  State (extracted st) (stdout st ++ [l]).

(** [open(output_filename, 'wb')] creates or truncates the file;
    [f_out.write(data)] then fills it. *)
Definition write_file (st : state) (nm : string) (data : bytes) : state :=
  State (<[nm := data]> (extracted st)) (stdout st).

Definition exists_ (st : state) (nm : string) : bool :=
  bool_decide (is_Some (extracted st !! nm)).

Definition lookup_name (nm : string) (entries : list (string * node))
    : option node :=
  snd <$> List.find (fun e => String.eqb (fst e) nm) entries.

Fixpoint resolve (n : node) (rel : list string) : option node :=
  match rel with
  | [] => Some n
  | c :: rel' =>
      match n with
      | Dir entries => n' ← lookup_name c entries; resolve n' rel'
      | File _ => None
      end
  end.

(** [os.listdir(p)] where [p] names the node [n]. *)
Definition listdir (p : path) (n : node) : exn + list string :=
  match n with
  | Dir entries => inr (map fst entries)
  | File _ => inl (NotADirectoryError p)
  end.

Definition is_dir (n : node) : Prop :=
  match n with Dir _ => True | File _ => False end.

Definition is_file (n : node) : Prop :=
  match n with File _ => True | Dir _ => False end.

(** The archives one directory below [data_raw_dir]: the value of the
    generator expression when no [os.listdir] call raises. *)
Definition selected (data_raw_dir : path) (raw : list (string * node))
    : list path :=
  flat_map (fun e =>
    match snd e with
    | Dir entries =>
        map (truediv (truediv data_raw_dir (fst e)))
            (List.filter (fun f => endswith f ".cdf.gz") (map fst entries))
    | File _ => []
    end) raw.

(** Two listings of the same directory tree: [os.listdir] may return
    the entries of [data_raw_dir], and of each directory in it, in any
    order. *)
Definition same_node (n n' : node) : Prop :=
  match n, n' with
  | File c, File c' => c = c'
  | Dir entries, Dir entries' => entries ≡ₚ entries'
  | _, _ => False
  end.

Definition same_listing (raw raw' : list (string * node)) : Prop :=
  exists mid, raw ≡ₚ mid /\
    Forall2 (fun e e' => fst e = fst e' /\ same_node (snd e) (snd e')) mid raw'.

(** The file names that the [Extracting] lines report, in print order. *)
Definition sources (out : list line) : list path :=
  omap (fun l => match l with Extracting f _ => Some f | Overriding _ => None end) out.

(** The output files written for a list of archives with their
    decompressed contents, in order; a later write to the same name
    replaces the earlier one. *)
Definition apply_writes (m : gmap string bytes) (ws : list (path * bytes))
    : gmap string bytes :=
  foldl (fun m fd => <[stem (fst fd) := snd fd]> m) m ws.

Section Run.
(** [gzip.open(f_in).read()]: the decompressed bytes, [None] when the
    content is not a valid gzip stream and the call raises. *)
Variable gunzip : bytes -> option bytes.
Variables data_raw_dir data_extracted_dir : path.

(** The generator expression
<<
    data_raw_dir / dirname / filename
    for dirname in os.listdir(data_raw_dir)
    for filename in os.listdir(data_raw_dir / dirname)
    if filename.endswith(".cdf.gz")
>>
    run to its end over the entries [raw] of [data_raw_dir]. *)
Fixpoint archive_paths (raw : list (string * node)) : exn + list path :=
  match raw with
  | [] => inr []
  | (dirname, n) :: rest =>
      match listdir (truediv data_raw_dir dirname) n with
      | inl e => inl e
      | inr filenames =>
          match archive_paths rest with
          | inl e => inl e
          | inr ps =>
              inr (map (truediv (truediv data_raw_dir dirname))
                       (List.filter (fun f => endswith f ".cdf.gz") filenames)
                   ++ ps)%list
          end
      end
  end.

(** [data_raw_filenames = sorted(...)] *)
Definition data_raw_filenames (raw : list (string * node))
    : exn + list path :=
  match archive_paths raw with
  | inl e => inl e
  | inr ps => inr (sorted ps)
  end.

(** [open(filename, 'rb')] followed by reading the whole file. *)
Definition open_rb (raw : list (string * node)) (filename : path)
    : exn + bytes :=
  match resolve (Dir raw) (drop (List.length data_raw_dir) filename) with
  | Some (File c) => inr c
  | Some (Dir _) => inl (IsADirectoryError filename)
  | None => inl (FileNotFoundError filename)
  end.

(** [d] is what the archive [f] decompresses to. *)
Definition payload (raw : list (string * node)) (f : path) (d : bytes) : Prop :=
  exists c, open_rb raw f = inr c /\ gunzip c = Some d.

(** [output_filename = data_extracted_dir / filename.stem] *)
Definition output_filename (f : path) : path :=
  truediv data_extracted_dir (stem f).

(** The body of the [for filename in data_raw_filenames] loop.  The
    [with] statement opens the archive, then opens the output for
    writing (which empties it), and only then decompresses. *)
Definition process_file (raw : list (string * node)) (st : state)
    (filename : path) : state * outcome :=
  let st1 := print st (Extracting filename (output_filename filename)) in
  let st2 := if exists_ st1 (stem filename)
             then print st1 (Overriding filename) else st1 in
  match open_rb raw filename with
  | inl e => (st2, Raised e)
  | inr compressed =>
      let st3 := write_file st2 (stem filename) [] in
      match gunzip compressed with
      | None => (st3, Raised (BadGzipFile filename))
      | Some data => (write_file st3 (stem filename) data, Returned)
      end
  end.

Fixpoint process_files (raw : list (string * node)) (st : state)
    (files : list path) : state * outcome :=
  match files with
  | [] => (st, Returned)
  | f :: rest =>
      match process_file raw st f with
      | (st', Returned) => process_files raw st' rest
      | failed => failed
      end
  end.

Definition extract_and_process_files (raw : list (string * node))
    (st : state) : state * outcome :=
  match data_raw_filenames raw with
  | inl e => (st, Raised e)
  | inr files => process_files raw st files
  end.

End Run.

(** The notebook's constants. *)
Definition DATA_DIR : path := [".."; "data"; "irem"].
Definition DATA_RAW_DIR : path := truediv DATA_DIR "raw".
Definition DATA_EXTRACTED_DIR : path := truediv DATA_DIR "extracted".

End Extract.

Module ExtractExamples.
Import PurePath Extract.

(** A stand-in decoder for running the model: a stream is its two magic
    bytes followed by the payload. *)
Definition toy_gunzip (b : bytes) : option bytes :=
  match b with
  | Byte.x1f :: Byte.x8b :: payload => Some payload
  | _ => None
  end.

Definition gz (payload : bytes) : bytes := Byte.x1f :: Byte.x8b :: payload.

Definition raw_ok : list (string * node) :=
  [ ("2012", Dir [ ("b.cdf.gz", File (gz [Byte.x02]));
                   ("notes.txt", File [Byte.x00]) ]);
    ("2011", Dir [ ("z.cdf.gz", File (gz [Byte.x03]));
                   ("a.cdf.gz", File (gz [Byte.x01])) ]) ].

Definition raw_with_top_level_file : list (string * node) :=
  raw_ok ++ [ ("index.html", File [Byte.x3c]) ].

Definition raw_shuffled : list (string * node) :=
  [ ("2011", Dir [ ("a.cdf.gz", File (gz [Byte.x01]));
                   ("z.cdf.gz", File (gz [Byte.x03])) ]);
    ("2012", Dir [ ("notes.txt", File [Byte.x00]);
                   ("b.cdf.gz", File (gz [Byte.x02])) ]) ].

Definition archive_a : path := truediv (truediv DATA_RAW_DIR "2011") "a.cdf.gz".
Definition archive_z : path := truediv (truediv DATA_RAW_DIR "2011") "z.cdf.gz".
Definition archive_b : path := truediv (truediv DATA_RAW_DIR "2012") "b.cdf.gz".

Definition files_ok : list path := [archive_a; archive_z; archive_b].

Definition st0 : state := State ∅ [].

(** The extracted directory already holds an older [a.cdf]. *)
Definition st_stale : state := State {[ "a.cdf" := [Byte.xff] ]} [].

(** What a first run over [raw_ok] leaves behind. *)
Definition st_after : state :=
  State (<["b.cdf" := [Byte.x02]]> (<["z.cdf" := [Byte.x03]]> {[ "a.cdf" := [Byte.x01] ]}))
        [ Extracting archive_a (truediv DATA_EXTRACTED_DIR "a.cdf");
          Extracting archive_z (truediv DATA_EXTRACTED_DIR "z.cdf");
          Extracting archive_b (truediv DATA_EXTRACTED_DIR "b.cdf") ].

Definition run := extract_and_process_files toy_gunzip DATA_RAW_DIR DATA_EXTRACTED_DIR.

End ExtractExamples.

(** ** The [radem.handlers] boundary: listing, reading, normalising *)

Module Handlers.

Inductive kind : Type := Science | Housekeeping.

Definition kind_eqb (a b : kind) : bool :=
  match a, b with
  | Science, Science | Housekeeping, Housekeeping => true
  | _, _ => false
  end.

(** [datetime.date]; two dates compare by year, then month, then day. *)
Record date : Type := Date { year : Z; month : Z; day : Z }.

Definition date_leb (a b : date) : bool :=
  (year a <? year b) ||
  ((year a =? year b) &&
   ((month a <? month b) || ((month a =? month b) && (day a <=? day b)))).

(** The inclusive window [[from_date, to_date]]; an omitted bound does
    not restrict. *)
Definition in_range (from_date to_date : option date) (d : date) : bool :=
  match from_date with Some a => date_leb a d | None => true end &&
  match to_date with Some b => date_leb d b | None => true end.

(** One row of a table: its time index and its numeric cells. *)
Record row : Type := Row { time : Z; values : list Z }.

(** A Parsed Table: named columns and time-indexed rows. *)
Record table : Type := Table { columns : list string; rows : list row }.

(** What reading one decoded file yields. *)
Definition handle : Type := list row.

(** A decoded record file of the extracted directory: its path, the kind
    and the date embedded in its name, and the rows it holds ([None] for a
    file that does not parse). *)
Record decoded_file : Type := DecodedFile {
  file_path : string;
  file_kind : kind;
  file_date : date;
  file_rows : option (list row)
}.

Inductive error : Type :=
| ParseError (p : string)
| FileNotFound (p : string).

Definition matches (k : kind) (from_date to_date : option date)
    (f : decoded_file) : bool :=
  kind_eqb (file_kind f) k && in_range from_date to_date (file_date f).

(** Modelled from the spec: [radem.handlers.get_radem_science_cdf_paths]
    and its housekeeping twin, which the repository only calls.  Section
    4.3: [list_paths] returns every decoded-record file path whose kind
    matches and whose embedded date falls within the inclusive range when
    supplied; omitting the range returns all matching paths. *)
Definition get_radem_cdf_paths (root : list decoded_file) (k : kind)
    (from_date to_date : option date) : list string :=
  map file_path (List.filter (matches k from_date to_date) root).

Definition parse (f : decoded_file) : error + handle :=
  match file_rows f with
  | Some rs => inr rs
  | None => inl (ParseError (file_path f))
  end.

Definition read_path (root : list decoded_file) (p : string) : error + handle :=
  match List.find (fun f => String.eqb (file_path f) p) root with
  | Some f => parse f
  | None => inl (FileNotFound p)
  end.

(** Modelled from the spec: [radem.handlers.read_radem_cdfs] on an
    explicit path sequence.  Section 4.3: [read] produces one handle per
    input file and fails with a ParseError surfaced to the caller if a
    file is malformed. *)
Fixpoint read_radem_cdfs (root : list decoded_file) (paths : list string)
    : error + list handle :=
  match paths with
  | [] => inr []
  | p :: rest =>
      match read_path root p with
      | inl e => inl e
      | inr h =>
          match read_radem_cdfs root rest with
          | inl e => inl e
          | inr hs => inr (h :: hs)
          end
      end
  end.

(** Modelled from the spec: [radem.handlers.read_radem_science_cdfs] and
    its housekeeping twin on a directory.  Section 4.3: given a directory,
    [read] reads every matching file found; with the date range passed it
    is the combined filtered read.  One pass over the directory, parsing
    each file of the kind whose date is in the window. *)
Fixpoint read_radem_kind_cdfs (k : kind) (from_date to_date : option date)
    (root : list decoded_file) : error + list handle :=
  match root with
  | [] => inr []
  | f :: rest =>
      if matches k from_date to_date f then
        match parse f with
        | inl e => inl e
        | inr h =>
            match read_radem_kind_cdfs k from_date to_date rest with
            | inl e => inl e
            | inr hs => inr (h :: hs)
            end
        end
      else read_radem_kind_cdfs k from_date to_date rest
  end.

(** Which of two rows with the same time index survives: the
    specification leaves it to the library. *)
Inductive keep : Type := KeepFirst | KeepLast.

Fixpoint drop_duplicates (seen : list Z) (rs : list row) : list row :=
  match rs with
  | [] => []
  | r :: rest =>
      if existsb (Z.eqb (time r)) seen then drop_duplicates seen rest
      else r :: drop_duplicates (time r :: seen) rest
  end.

Definition dedupe (k : keep) (rs : list row) : list row :=
  match k with
  | KeepFirst => drop_duplicates [] rs
  | KeepLast => rev (drop_duplicates [] (rev rs))
  end.

Fixpoint insert_by_time (r : row) (l : list row) : list row :=
  match l with
  | [] => [r]
  | r' :: l' =>
      if time r' <? time r then r' :: insert_by_time r l' else r :: r' :: l'
  end.

Definition sort_by_time (rs : list row) : list row :=
  foldr insert_by_time [] rs.

(** Modelled from the spec: [radem.handlers.convert_radem_science_cdfs_to_df].
    Section 4.3: [normalize] concatenates all handles' rows, removes
    duplicate time-index rows, sorts by time ascending, and returns one
    table with the column schema of the kind. *)
Definition convert_radem_cdfs_to_df (schema : list string) (k : keep)
    (cdfs : list handle) : table :=
  Table schema (sort_by_time (dedupe k (concat cdfs))).

Definition then_convert (schema : list string) (k : keep)
    (r : error + list handle) : error + table :=
  match r with
  | inl e => inl e
  | inr cdfs => inr (convert_radem_cdfs_to_df schema k cdfs)
  end.

(** The three call patterns of the notebook ("Reading CDFs", options 1
    to 3), each followed by the conversion. *)
Section Patterns.
Variable schema : list string.
Variable policy : keep.
Variable root : list decoded_file.
Variable k : kind.

(** Option 1: [read_radem_science_cdfs(DATA_EXTRACTED_DIR)]. *)
Definition ingest_full_directory : error + table :=
  then_convert schema policy (read_radem_kind_cdfs k None None root).

(** Option 2: [read_radem_cdfs(get_radem_science_cdf_paths(DATA_EXTRACTED_DIR,
    from_date=..., to_date=...))]. *)
Definition ingest_prefiltered_paths (from_date to_date : date) : error + table :=
  then_convert schema policy
    (read_radem_cdfs root
       (get_radem_cdf_paths root k (Some from_date) (Some to_date))).

(** Option 3: [read_radem_science_cdfs(DATA_EXTRACTED_DIR, from_date=...,
    to_date=...)]. *)
Definition ingest_combined_filtered (from_date to_date : date) : error + table :=
  then_convert schema policy
    (read_radem_kind_cdfs k (Some from_date) (Some to_date) root).

End Patterns.

End Handlers.

Module HandlersExamples.
Import Handlers.

Definition december_1 : date := Date 2023 12 1.
Definition january_31 : date := Date 2024 1 31.

Definition two_days : list decoded_file :=
  [ DecodedFile "sc_20231130.cdf" Science (Date 2023 11 30)
      (Some [Row 1130 [14; 190]]);
    DecodedFile "sc_20231201.cdf" Science december_1
      (Some [Row 1201 [12; 214]]);
    DecodedFile "hk_20231201.cdf" Housekeeping december_1
      (Some [Row 1201 [3]]) ].

Definition in_window_only : list decoded_file :=
  [ DecodedFile "sc_20231201.cdf" Science december_1
      (Some [Row 1201 [12; 214]; Row 1200 [1; 2]]);
    DecodedFile "sc_20231202.cdf" Science (Date 2023 12 2)
      (Some [Row 1201 [9; 9]; Row 1202 [5; 6]]) ].

Definition two_columns : list string := ["protons_bin_1"; "protons_bin_2"].

End HandlersExamples.

(** ** pandas operations that the reload cells apply to a frame *)

Module Pandas.
Import Handlers.

Definition index (df : table) : list Z := map time (rows df).

(** [left._indexed_same(right)]: same index and same columns, in the
    same order. *)
Definition indexed_same (a b : table) : bool :=
  bool_decide (index a = index b) && bool_decide (columns a = columns b).

(** The frame of booleans that [a == b] evaluates to. *)
Record bool_frame : Type := BoolFrame {
  bf_index : list Z;
  bf_columns : list string;
  bf_cells : list (list bool)
}.

Inductive exn : Type := ValueError (msg : string).

(** [a == b] on two frames: cell by cell when the labels agree;
    otherwise pandas raises. *)
Definition eq_frames (a b : table) : exn + bool_frame :=
  if indexed_same a b then
    inr (BoolFrame (index a) (columns a)
           (zip_with (fun r r' => zip_with Z.eqb (values r) (values r'))
                     (rows a) (rows b)))
  else
    inl (ValueError
      "Can only compare identically-labeled (both index and columns) DataFrame objects").

(** The builtin [all] applied to a frame.  Iterating a frame yields its
    column labels, and a label of type [str] is true unless it is empty. *)
Definition py_all (f : bool_frame) : bool :=
  forallb (fun label => negb (String.eqb label "")) (bf_columns f).

(** [str(b)], as [print] shows a bool. *)
Definition str_of_bool (b : bool) : string := if b then "True" else "False".

End Pandas.

(** ** The persist-and-reload cells *)

Module Notebook.
Import PurePath Handlers Pandas.

Inductive outcome : Type :=
| Completed
| Raised (e : exn).

(** *** [radem_data_transformations.ipynb] and the IREM notebook *)

Section Transformations.
(** The files on disk, and the four [radem.handlers] functions that the
    cells call on them; the library is outside the repository. *)
Variable disk : Type.
Variable write_hdf : table -> path -> disk -> disk.
Variable read_hdf : path -> disk -> table.
Variable write_csv : table -> path -> disk -> disk.
Variable read_csv : path -> disk -> table.

(** The kernel's variables, the disk and what the cells have printed. *)
Record kernel : Type := Kernel {
  files : disk;
  sc_df : table;
  sc_df_hdf : option table;
  sc_df_csv : option table;
  printed : list string
}.

Definition cell : Type := kernel -> kernel * outcome.

(** [radem.handlers.write_hdf(sc_df, DATA_HDF5_DIR / "example.h5")] *)
Definition writing_to_hdf5 (p : path) : cell := fun s =>
  (Kernel (write_hdf (sc_df s) p (files s))
          (sc_df s) (sc_df_hdf s) (sc_df_csv s) (printed s),
   Completed).

(** [sc_df_hdf = radem.handlers.read_hdf(DATA_HDF5_DIR / "example.h5")]
    then [print(all(sc_df_hdf == sc_df))] *)
Definition reading_from_hdf5 (p : path) : cell := fun s =>
  let loaded := read_hdf p (files s) in
  match eq_frames loaded (sc_df s) with
  | inl e =>
      (Kernel (files s) (sc_df s) (Some loaded) (sc_df_csv s) (printed s),
       Raised e)
  | inr cmp =>
      (Kernel (files s) (sc_df s) (Some loaded) (sc_df_csv s)
              (printed s ++ [str_of_bool (py_all cmp)]),
       Completed)
  end.

(** [radem.handlers.write_csv(sc_df, DATA_CSV_DIR / "example.csv")] *)
Definition writing_to_csv (p : path) : cell := fun s =>
  (Kernel (write_csv (sc_df s) p (files s))
          (sc_df s) (sc_df_hdf s) (sc_df_csv s) (printed s),
   Completed).

(** [sc_df_csv = radem.handlers.read_csv(DATA_CSV_DIR / "example.csv")] *)
Definition reading_from_csv (p : path) : cell := fun s =>
  (Kernel (files s) (sc_df s) (sc_df_hdf s) (Some (read_csv p (files s)))
          (printed s),
   Completed).

(** Running cells in order; the first exception stops the run. *)
Fixpoint run_all (cells : list cell) (s : kernel) : kernel * outcome :=
  match cells with
  | [] => (s, Completed)
  | c :: rest =>
      match c s with
      | (s', Completed) => run_all rest s'
      | stopped => stopped
      end
  end.

Definition persist_and_reload (hdf5 csv : path) : list cell :=
  [ writing_to_hdf5 hdf5; reading_from_hdf5 hdf5;
    writing_to_csv csv; reading_from_csv csv ].

End Transformations.

Arguments Kernel {disk}.
Arguments files {disk}.
Arguments sc_df {disk}.
Arguments sc_df_hdf {disk}.
Arguments sc_df_csv {disk}.
Arguments printed {disk}.
Arguments run_all {disk}.
Arguments persist_and_reload {disk}.

(** The paths of the two notebooks. *)
Definition RADEM_DATA_DIR : path := [".."; "data"; "radem"].
Definition RADEM_HDF5 : path :=
  truediv (truediv RADEM_DATA_DIR "hdf5") "example.h5".
Definition RADEM_CSV : path :=
  truediv (truediv RADEM_DATA_DIR "csv") "example.csv".

Definition IREM_DATA_DIR : path := [".."; "data"; "irem"].
Definition IREM_HDF5 : path :=
  truediv (truediv IREM_DATA_DIR "hdf5") "example.hdf5".
Definition IREM_CSV : path :=
  truediv (truediv IREM_DATA_DIR "csv") "example.csv".

(** *** [spacecraft_trajectories.ipynb] *)

Section Trajectories.
(** The cells call pandas directly, on frames whose content plays no role
    here. *)
Variable disk : Type.
Variable frame : Type.
(** [df.to_hdf(path, key=..., mode='w', format='table')] *)
Variable to_hdf : frame -> string -> string -> disk -> disk.
(** [pd.read_hdf(path, key=...)] *)
Variable pd_read_hdf : string -> string -> disk -> frame.
(** [df.to_csv(path, index=False)] *)
Variable to_csv : frame -> string -> disk -> disk.
(** [pd.read_csv(path)] *)
Variable pd_read_csv : string -> disk -> frame.
(** [df.head()] *)
Variable head : frame -> frame.

Record tkernel : Type := TKernel {
  tfiles : disk;
  df_juice : frame;
  df_integral : frame;
  displayed : list frame
}.

(** "Saving to HDF5" *)
Definition saving_to_hdf5 (s : tkernel) : tkernel :=
  let d1 := to_hdf (df_juice s) "../data/juice_trajectory.h5" "trajectory"
              (tfiles s) in
  let d2 := to_hdf (df_integral s) "../data/integral_trajectory.h5" "trajectory"
              d1 in
  TKernel d2 (df_juice s) (df_integral s) (displayed s).

(** "Saving to CSV" *)
Definition saving_to_csv (s : tkernel) : tkernel :=
  let d1 := to_csv (df_juice s) "../data/juice_trajectory.csv" (tfiles s) in
  let d2 := to_csv (df_integral s) "../data/integral_trajectory.csv" d1 in
  TKernel d2 (df_juice s) (df_integral s) (displayed s).

(** "Reading from HDF5": both variables are reassigned, then
    [df_integral.head()] is shown. *)
Definition reading_from_hdf5_t (s : tkernel) : tkernel :=
  let j := pd_read_hdf "../data/juice_trajectory.h5" "trajectory" (tfiles s) in
  let i := pd_read_hdf "../data/integral_trajectory.h5" "trajectory" (tfiles s) in
  TKernel (tfiles s) j i (displayed s ++ [head i]).

(** "Reading from CSV" *)
Definition reading_from_csv_t (s : tkernel) : tkernel :=
  let j := pd_read_csv "../data/juice_trajectory.csv" (tfiles s) in
  let i := pd_read_csv "../data/integral_trajectory.csv" (tfiles s) in
  TKernel (tfiles s) j i (displayed s ++ [head i]).

Definition trajectory_persist_and_reload (s : tkernel) : tkernel :=
  reading_from_csv_t (reading_from_hdf5_t (saving_to_csv (saving_to_hdf5 s))).

End Trajectories.

Arguments TKernel {disk frame}.
Arguments tfiles {disk frame}.
Arguments df_juice {disk frame}.
Arguments df_integral {disk frame}.
Arguments displayed {disk frame}.

End Notebook.

Module NotebookExamples.
Import PurePath Handlers Pandas Notebook.

(** A disk that keeps, under each path, the table last written there. *)
Definition store : Type := gmap string table.

Definition keep_table (df : table) (p : path) (d : store) : store :=
  <[str p := df]> d.

Definition load_table (p : path) (d : store) : table :=
  default (Table [] []) (d !! str p).

(** A store that gives every value back without its last two decimal
    digits. *)
Definition round_row (r : row) : row :=
  Row (time r) (map (fun v => v / 100 * 100) (values r)).

Definition load_rounded (p : path) (d : store) : table :=
  let df := load_table p d in Table (columns df) (map round_row (rows df)).

Definition counts : table :=
  Table ["protons_bin_1"; "protons_bin_2"]
        [Row 29 [14; 190]; Row 89 [12; 214]].

Definition counts_rounded : table :=
  Table ["protons_bin_1"; "protons_bin_2"]
        [Row 29 [0; 100]; Row 89 [0; 200]].

Definition fresh : kernel store := Kernel ∅ counts None None [].

(** The RADEM cells with an exact binary store and a rounding text
    store. *)
Definition radem_run : kernel store * outcome :=
  run_all (persist_and_reload keep_table load_table keep_table load_rounded
             RADEM_HDF5 RADEM_CSV) fresh.

(** The same cells when the binary store itself returns rounded values. *)
Definition radem_run_rounding_hdf5 : kernel store * outcome :=
  run_all (persist_and_reload keep_table load_rounded keep_table load_rounded
             RADEM_HDF5 RADEM_CSV) fresh.

End NotebookExamples.

(** ** More raw trees for the Extract stage *)

Module ExtractTrees.
Import PyStr PurePath Extract ExtractExamples.

(** The raw tree without the entries that the generator's [if] clause
    rejects: in every directory of the top level, only the entries whose
    name ends in [.cdf.gz] stay. *)
Definition prune_node (n : node) : node :=
  match n with
  | Dir entries =>
      Dir (List.filter (fun e => endswith (fst e) ".cdf.gz") entries)
  | File c => File c
  end.

Definition prune (raw : list (string * node)) : list (string * node) :=
  map (fun e => (fst e, prune_node (snd e))) raw.

(** [2011/m.cdf.gz] is not a gzip stream. *)
Definition raw_corrupt : list (string * node) :=
  [ ("2011", Dir [ ("a.cdf.gz", File (gz [Byte.x01]));
                   ("m.cdf.gz", File [Byte.x00; Byte.x00]);
                   ("z.cdf.gz", File (gz [Byte.x03])) ]) ].

Definition archive_m : path := truediv (truediv DATA_RAW_DIR "2011") "m.cdf.gz".

(** [2011/m.cdf.gz] is a directory. *)
Definition raw_directory_named_archive : list (string * node) :=
  [ ("2011", Dir [ ("a.cdf.gz", File (gz [Byte.x01]));
                   ("m.cdf.gz", Dir [ ("inner.cdf.gz", File (gz [Byte.x09])) ]);
                   ("z.cdf.gz", File (gz [Byte.x03])) ]) ].

(** Two directories hold an archive of the same name. *)
Definition raw_same_name : list (string * node) :=
  [ ("2012", Dir [ ("a.cdf.gz", File (gz [Byte.x12])) ]);
    ("2011", Dir [ ("a.cdf.gz", File (gz [Byte.x11])) ]) ].

Definition archive_a_2012 : path :=
  truediv (truediv DATA_RAW_DIR "2012") "a.cdf.gz".

(** The extracted directory holds good older outputs and a file that no
    archive produces. *)
Definition st_old : state :=
  State (<["m.cdf" := [Byte.x0d]]> (<["readme.txt" := [Byte.x72]]> ∅)) [].

End ExtractTrees.

(** ** The ingest cells of the two data-transformation notebooks *)

Module Ingest.
Import PurePath Handlers.

Inductive exn : Type :=
| IndexError
| NameError (name : string)
| LibraryError (msg : string).

Inductive outcome : Type :=
| Completed
| Raised (e : exn).

(** What a [print] call shows: an int, a text or a frame. *)
Inductive output : Type :=
| PrintInt (n : Z)
| PrintText (s : string)
| PrintTable (t : table).

(** [l[i]] for a Python int [i]: a negative index counts from the end;
    out of range is [IndexError]. *)
Definition getitem {A : Type} (l : list A) (i : Z) : exn + A :=
  let n := Z.of_nat (List.length l) in
  let j := if i <? 0 then i + n else i in
  if (0 <=? j) && (j <? n) then
    match l !! Z.to_nat j with
    | Some a => inr a
    | None => inl IndexError
    end
  else inl IndexError.

(** A parsed CDF as [print_cdf_report] looks at it: what [print] shows
    for it, its [meta], and its variables with what [print] shows for
    each and for its [meta]. *)
Record cdf_variable : Type := CdfVariable { var_str : string; var_meta : string }.

Record cdf_file : Type := CdfFile {
  cdf_str : string;
  cdf_meta : string;
  cdf_items : list (string * cdf_variable)
}.

(** [print_cdf_report(cdf)] of the IREM notebook: the lines it prints. *)
Definition print_cdf_report (cdf : cdf_file) : list output :=
  [ PrintText "Keys:";
    PrintText (cdf_str cdf);
    PrintText (String "010" "CDF meta:");
    PrintText (cdf_meta cdf) ]
  ++ flat_map (fun kv =>
       [ PrintText (String "010" (fst kv) +:+ " -> " +:+ var_str (snd kv));
         PrintText (var_meta (snd kv)) ])
     (cdf_items cdf).

(** Statements run in order; the first exception stops the run and leaves
    the kernel as it was before the failing statement. *)
Definition statement (K : Type) : Type := K -> exn + K.

Fixpoint run_statements {K : Type} (l : list (statement K)) (k : K)
    : K * outcome :=
  match l with
  | [] => (k, Completed)
  | s :: rest =>
      match s k with
      | inl e => (k, Raised e)
      | inr k' => run_statements rest k'
      end
  end.

Definition lookup_variable {A : Type} (name : string) (v : option A) : exn + A :=
  match v with
  | Some a => inr a
  | None => inl (NameError name)
  end.

Definition bind {A B : Type} (r : exn + A) (f : A -> exn + B) : exn + B :=
  match r with
  | inl e => inl e
  | inr a => f a
  end.

(** *** The IREM notebook *)

Section Irem.
(** The [radem.handlers] functions the cells call; [read_irem_cdfs] takes
    a directory with an optional date range, or a list of paths. *)
Variable read_irem_cdfs_dir : path -> option (date * date) -> exn + list cdf_file.
Variable read_irem_cdfs_paths : list path -> exn + list cdf_file.
Variable get_irem_cdf_paths : path -> date -> date -> exn + list path.
Variable convert_irem_cdfs_to_df : list cdf_file -> exn + table.

Record irem_kernel : Type := IremKernel {
  cdfs : option (list cdf_file);
  paths : option (list path);
  df : option table;
  irem_printed : list output
}.

Definition irem_put (k : irem_kernel) (o : list output) : irem_kernel :=
  IremKernel (cdfs k) (paths k) (df k) (irem_printed k ++ o).

Definition IREM_EXTRACTED : path := [".."; "data"; "irem"; "extracted"].
Definition irem_from : date := Date 2011 11 11.
Definition irem_to : date := Date 2012 12 12.

(** [print(len(cdfs))] *)
Definition print_len_cdfs : statement irem_kernel := fun k =>
  bind (lookup_variable "cdfs" (cdfs k)) (fun l =>
  inr (irem_put k [PrintInt (Z.of_nat (List.length l))])).

(** "Reading CDFs (option 1)" *)
Definition irem_option_1 : list (statement irem_kernel) :=
  [ fun k => bind (read_irem_cdfs_dir IREM_EXTRACTED None) (fun l =>
             inr (IremKernel (Some l) (paths k) (df k) (irem_printed k)));
    print_len_cdfs ].

(** "Reading CDFs (option 2)" *)
Definition irem_option_2 : list (statement irem_kernel) :=
  [ fun k => bind (get_irem_cdf_paths IREM_EXTRACTED irem_from irem_to) (fun ps =>
             inr (IremKernel (cdfs k) (Some ps) (df k) (irem_printed k)));
    fun k => bind (lookup_variable "paths" (paths k)) (fun ps =>
             bind (read_irem_cdfs_paths ps) (fun l =>
             inr (IremKernel (Some l) (paths k) (df k) (irem_printed k))));
    print_len_cdfs ].

(** "Reading CDFs (option 3)" *)
Definition irem_option_3 : list (statement irem_kernel) :=
  [ fun k => bind (read_irem_cdfs_dir IREM_EXTRACTED (Some (irem_from, irem_to)))
               (fun l =>
             inr (IremKernel (Some l) (paths k) (df k) (irem_printed k)));
    print_len_cdfs ].

(** "Exploring CDF": [print_cdf_report(cdfs[-10])] *)
Definition irem_exploring : list (statement irem_kernel) :=
  [ fun k => bind (lookup_variable "cdfs" (cdfs k)) (fun l =>
             bind (getitem l (-10)) (fun c =>
             inr (irem_put k (print_cdf_report c)))) ].

(** "Fix and convert": [df = convert_irem_cdfs_to_df(cdfs)], [print(df)] *)
Definition irem_convert : list (statement irem_kernel) :=
  [ fun k => bind (lookup_variable "cdfs" (cdfs k)) (fun l =>
             bind (convert_irem_cdfs_to_df l) (fun t =>
             inr (IremKernel (cdfs k) (paths k) (Some t) (irem_printed k))));
    fun k => bind (lookup_variable "df" (df k)) (fun t =>
             inr (irem_put k [PrintTable t])) ].

Definition irem_ingest : list (statement irem_kernel) :=
  irem_option_1 ++ irem_option_2 ++ irem_option_3 ++ irem_exploring
  ++ irem_convert.

End Irem.

(** *** The RADEM notebook *)

Section Radem.
Variable read_radem_science_cdfs : path -> option (date * date) -> exn + list cdf_file.
Variable read_radem_housekeeping_cdfs : path -> option (date * date) -> exn + list cdf_file.
Variable get_radem_science_cdf_paths : path -> date -> date -> exn + list path.
Variable get_radem_housekeeping_cdf_paths : path -> date -> date -> exn + list path.
Variable read_radem_cdfs : list path -> exn + list cdf_file.
Variable convert_radem_science_cdfs_to_df : list cdf_file -> exn + table.

Record radem_kernel : Type := RademKernel {
  sc_cdfs : option (list cdf_file);
  hk_cdfs : option (list cdf_file);
  sc_paths : option (list path);
  hk_paths : option (list path);
  sc_cdf : option (list cdf_file);
  hk_cdf : option (list cdf_file);
  sc_df : option table;
  radem_printed : list output
}.

Definition radem_put (k : radem_kernel) (o : list output) : radem_kernel :=
  RademKernel (sc_cdfs k) (hk_cdfs k) (sc_paths k) (hk_paths k)
              (sc_cdf k) (hk_cdf k) (sc_df k) (radem_printed k ++ o).

Definition RADEM_EXTRACTED : path := [".."; "data"; "radem"; "extracted"].
Definition radem_from : date := Date 2023 12 1.
Definition radem_to : date := Date 2024 1 31.

Definition print_len (name : string)
    (v : radem_kernel -> option (list cdf_file)) : statement radem_kernel :=
  fun k => bind (lookup_variable name (v k)) (fun l =>
           inr (radem_put k [PrintInt (Z.of_nat (List.length l))])).

(** "Reading CDFs (option 1)" *)
Definition radem_option_1 : list (statement radem_kernel) :=
  [ fun k => bind (read_radem_science_cdfs RADEM_EXTRACTED None) (fun l =>
      inr (RademKernel (Some l) (hk_cdfs k) (sc_paths k) (hk_paths k)
             (sc_cdf k) (hk_cdf k) (sc_df k) (radem_printed k)));
    fun k => bind (read_radem_housekeeping_cdfs RADEM_EXTRACTED None) (fun l =>
      inr (RademKernel (sc_cdfs k) (Some l) (sc_paths k) (hk_paths k)
             (sc_cdf k) (hk_cdf k) (sc_df k) (radem_printed k)));
    print_len "sc_cdfs" sc_cdfs;
    print_len "hk_cdfs" hk_cdfs ].

(** "Reading CDFs (option 2)" *)
Definition radem_option_2 : list (statement radem_kernel) :=
  [ fun k => bind (get_radem_science_cdf_paths RADEM_EXTRACTED radem_from radem_to)
      (fun ps =>
      inr (RademKernel (sc_cdfs k) (hk_cdfs k) (Some ps) (hk_paths k)
             (sc_cdf k) (hk_cdf k) (sc_df k) (radem_printed k)));
    fun k => bind (get_radem_housekeeping_cdf_paths RADEM_EXTRACTED radem_from radem_to)
      (fun ps =>
      inr (RademKernel (sc_cdfs k) (hk_cdfs k) (sc_paths k) (Some ps)
             (sc_cdf k) (hk_cdf k) (sc_df k) (radem_printed k)));
    fun k => bind (lookup_variable "sc_paths" (sc_paths k)) (fun ps =>
             bind (read_radem_cdfs ps) (fun l =>
      inr (RademKernel (Some l) (hk_cdfs k) (sc_paths k) (hk_paths k)
             (sc_cdf k) (hk_cdf k) (sc_df k) (radem_printed k))));
    fun k => bind (lookup_variable "hk_paths" (hk_paths k)) (fun ps =>
             bind (read_radem_cdfs ps) (fun l =>
      inr (RademKernel (sc_cdfs k) (Some l) (sc_paths k) (hk_paths k)
             (sc_cdf k) (hk_cdf k) (sc_df k) (radem_printed k))));
    print_len "sc_cdfs" sc_cdfs;
    print_len "hk_cdfs" hk_cdfs ].

(** "Reading CDFs (option 3)": the results are bound to [sc_cdf] and
    [hk_cdf]. *)
Definition radem_option_3 : list (statement radem_kernel) :=
  [ fun k => bind (read_radem_science_cdfs RADEM_EXTRACTED
                     (Some (radem_from, radem_to))) (fun l =>
      inr (RademKernel (sc_cdfs k) (hk_cdfs k) (sc_paths k) (hk_paths k)
             (Some l) (hk_cdf k) (sc_df k) (radem_printed k)));
    fun k => bind (read_radem_housekeeping_cdfs RADEM_EXTRACTED
                     (Some (radem_from, radem_to))) (fun l =>
      inr (RademKernel (sc_cdfs k) (hk_cdfs k) (sc_paths k) (hk_paths k)
             (sc_cdf k) (Some l) (sc_df k) (radem_printed k)));
    print_len "sc_cdf" sc_cdf;
    print_len "hk_cdf" hk_cdf ].

(** "Fix and convert": [sc_df = convert_radem_science_cdfs_to_df(sc_cdfs)],
    [print(sc_df)] *)
Definition radem_convert : list (statement radem_kernel) :=
  [ fun k => bind (lookup_variable "sc_cdfs" (sc_cdfs k)) (fun l =>
             bind (convert_radem_science_cdfs_to_df l) (fun t =>
      inr (RademKernel (sc_cdfs k) (hk_cdfs k) (sc_paths k) (hk_paths k)
             (sc_cdf k) (hk_cdf k) (Some t) (radem_printed k))));
    fun k => bind (lookup_variable "sc_df" (sc_df k)) (fun t =>
             inr (radem_put k [PrintTable t])) ].

Definition radem_ingest : list (statement radem_kernel) :=
  radem_option_1 ++ radem_option_2 ++ radem_option_3 ++ radem_convert.

End Radem.

Definition irem_fresh : irem_kernel := IremKernel None None None [].
Definition radem_fresh : radem_kernel :=
  RademKernel None None None None None None None [].

End Ingest.

Module IngestExamples.
Import PurePath Handlers Ingest.

Definition counts_cdf (day : string) : cdf_file :=
  CdfFile ("TimeSeries " +:+ day) ("meta " +:+ day)
          [ ("counts", CdfVariable "counts[1440]" "unit: 1/s") ].

(** A directory with three files, two of them in the date range. *)
Definition small_read_dir (p : path) (range : option (date * date))
    : exn + list cdf_file :=
  match range with
  | None => inr [counts_cdf "d1"; counts_cdf "d2"; counts_cdf "d3"]
  | Some _ => inr [counts_cdf "d2"; counts_cdf "d3"]
  end.

Definition small_get_paths (p : path) (a b : date) : exn + list path :=
  inr [truediv p "d2.cdf"; truediv p "d3.cdf"].

Definition small_read_paths (ps : list path) : exn + list cdf_file :=
  inr (map (fun q => counts_cdf (name q)) ps).

Definition small_convert (l : list cdf_file) : exn + table :=
  inr (Table ["counts"] (map (fun c => Row (Z.of_nat (String.length (cdf_str c))) [0]) l)).

End IngestExamples.

(** * Facts about the string and path operations *)

Module PyStrFacts.
Import PyStr.

Lemma app_cons (a : ascii) (p q : string) :
  String a p +:+ q = String a (p +:+ q).
Proof. reflexivity. Qed.

Lemma substring_all (s : string) : String.substring 0 (String.length s) s = s.
Proof. induction s as [|a s IH]; simpl; [reflexivity|]. now rewrite IH. Qed.

Lemma substring_split (s : string) (n : nat) :
  (n <= String.length s)%nat ->
  s = String.substring 0 n s +:+ String.substring n (String.length s - n) s.
Proof.
  revert n. induction s as [|a s IH]; intros [|n] Hn; simpl in *; try lia.
  - reflexivity.
  - now rewrite substring_all.
  - rewrite app_cons. f_equal. apply IH. lia.
Qed.

Lemma endswith_app (s suffix : string) :
  endswith s suffix = true -> exists p, s = p +:+ suffix.
Proof.
  unfold endswith. intros H. apply andb_true_iff in H as [Hle Heq].
  apply Nat.leb_le in Hle. apply String.eqb_eq in Heq.
  pose proof (substring_split s (String.length s - String.length suffix)) as Hs.
  replace (String.length s - (String.length s - String.length suffix))%nat
    with (String.length suffix) in Hs by lia.
  rewrite Heq in Hs.
  eexists. apply Hs. lia.
Qed.

Lemma rfind_lower (c : ascii) (s : string) : -1 <= rfind c s.
Proof.
  induction s as [|a s IH]; simpl; [lia|].
  destruct (0 <=? rfind c s) eqn:E; [apply Z.leb_le in E; lia|].
  destruct (Ascii.eqb a c); lia.
Qed.

Lemma rfind_app (c : ascii) (p q : string) :
  rfind c (p +:+ q) =
  if 0 <=? rfind c q then len p + rfind c q else rfind c p.
Proof.
  unfold len. induction p as [|a p IH]; simpl String.length.
  - change ("" +:+ q) with q. change (rfind c "") with (-1).
    destruct (0 <=? rfind c q) eqn:E; [lia|].
    apply Z.leb_gt in E. pose proof (rfind_lower c q). lia.
  - rewrite app_cons. simpl rfind.
    rewrite IH. destruct (0 <=? rfind c q) eqn:E.
    + apply Z.leb_le in E.
      replace (0 <=? Z.of_nat (String.length p) + rfind c q) with true
        by (symmetry; apply Z.leb_le; lia).
      lia.
    + reflexivity.
Qed.

Lemma slice_to_app (p q : string) (k : nat) :
  String.substring 0 (String.length p + k) (p +:+ q) =
  p +:+ String.substring 0 k q.
Proof.
  induction p as [|a p IH]; simpl; [reflexivity|].
  now rewrite !app_cons, IH.
Qed.

Lemma length_app (p q : string) :
  String.length (p +:+ q) = (String.length p + String.length q)%nat.
Proof.
  induction p as [|a p IH]; [reflexivity|].
  rewrite app_cons. simpl. now rewrite IH.
Qed.

Lemma app_assoc (p q r : string) : (p +:+ q) +:+ r = p +:+ (q +:+ r).
Proof.
  induction p as [|a p IH]; [reflexivity|]. now rewrite !app_cons, IH.
Qed.

End PyStrFacts.

Module PurePathFacts.
Import PyStr PyStrFacts PurePath.

Lemma name_truediv (p : path) (child : string) : name (truediv p child) = child.
Proof. unfold name, truediv. apply last_last. Qed.

Lemma rfind_dot_cdf_gz (pre : string) :
  rfind "." (pre +:+ ".cdf.gz") = len pre + 4.
Proof. rewrite rfind_app. reflexivity. Qed.

Lemma endswith_intro (pre suffix : string) :
  endswith (pre +:+ suffix) suffix = true.
Proof.
  unfold endswith. rewrite length_app.
  apply andb_true_iff. split; [apply Nat.leb_le; lia|].
  apply String.eqb_eq.
  replace (String.length pre + String.length suffix - String.length suffix)%nat
    with (String.length pre) by lia.
  induction pre as [|a pre IH]; [apply substring_all|].
  rewrite app_cons. simpl. exact IH.
Qed.

(** A name that ends in [.cdf.gz] loses exactly its last three
    characters, [.gz], to [stem]. *)
Lemma stem_cdf_gz (p : path) :
  endswith (name p) ".cdf.gz" = true ->
  name p = stem p +:+ ".gz" /\
  endswith (stem p) ".cdf" = true.
Proof.
  intros H. apply endswith_app in H as [pre Hpre].
  assert (Hstem : stem p = pre +:+ ".cdf").
  { unfold stem. cbv zeta. rewrite Hpre, rfind_dot_cdf_gz.
    unfold len. rewrite length_app. simpl (String.length ".cdf.gz").
    assert ((0 <? Z.of_nat (String.length pre) + 4) = true) as ->
      by (apply Z.ltb_lt; lia).
    assert ((Z.of_nat (String.length pre) + 4 <?
             Z.of_nat (String.length pre + 7) - 1) = true) as ->
      by (apply Z.ltb_lt; lia).
    simpl andb. cbv iota. unfold slice_to.
    replace (Z.to_nat (Z.of_nat (String.length pre) + 4))
      with (String.length pre + 4)%nat by lia.
    rewrite slice_to_app. reflexivity. }
  rewrite Hstem, Hpre. split.
  - rewrite app_assoc. reflexivity.
  - apply endswith_intro.
Qed.

Example stem_example :
  PurePath.stem ["raw"; "2011"; "irem_20111111.cdf.gz"] = "irem_20111111.cdf".
Proof. reflexivity. Qed.

End PurePathFacts.

(** * The order on paths and what [sorted] returns *)

Module OrderFacts.
Import PurePath Builtins.

(** A three-way comparison that is a strict total order. *)
Section Lexicographic.
Context {A : Type} (cmp : A -> A -> comparison).
Hypothesis cmp_refl : forall a, cmp a a = Eq.
Hypothesis cmp_eq : forall a b, cmp a b = Eq -> a = b.
Hypothesis cmp_antisym : forall a b, cmp a b = CompOpp (cmp b a).
Hypothesis cmp_lt_trans :
  forall a b c, cmp a b = Lt -> cmp b c = Lt -> cmp a c = Lt.

Local Abbreviation lex := (PyList.compare cmp).

Lemma lex_refl p : lex p p = Eq.
Proof. induction p as [|a p IH]; simpl; [|rewrite cmp_refl]; auto. Qed.

Lemma lex_eq p q : lex p q = Eq -> p = q.
Proof.
  revert q. induction p as [|a p IH]; intros [|b q]; simpl; try easy.
  destruct (cmp a b) eqn:E; try easy.
  intros H. apply cmp_eq in E as ->. f_equal. auto.
Qed.

Lemma lex_antisym p q : lex p q = CompOpp (lex q p).
Proof.
  revert q. induction p as [|a p IH]; intros [|b q]; simpl; try easy.
  rewrite (cmp_antisym b a). destruct (cmp a b); simpl; auto.
Qed.

Lemma lex_lt_trans p q r : lex p q = Lt -> lex q r = Lt -> lex p r = Lt.
Proof.
  revert q r.
  induction p as [|a p IH]; intros [|b q] [|c r]; simpl; try easy.
  destruct (cmp a b) eqn:E1; destruct (cmp b c) eqn:E2; try easy.
  - apply cmp_eq in E1 as ->. rewrite E2. apply IH.
  - apply cmp_eq in E1 as ->. now rewrite E2.
  - apply cmp_eq in E2 as ->. now rewrite E1.
  - now rewrite (cmp_lt_trans _ _ _ E1 E2).
Qed.
End Lexicographic.

Lemma ascii_compare_refl a : Ascii.compare a a = Eq.
Proof. unfold Ascii.compare. apply N.compare_refl. Qed.

Lemma ascii_compare_lt_trans a b c :
  Ascii.compare a b = Lt -> Ascii.compare b c = Lt -> Ascii.compare a c = Lt.
Proof.
  unfold Ascii.compare. rewrite !N.compare_lt_iff. apply N.lt_trans.
Qed.

Lemma string_compare_refl s : String.compare s s = Eq.
Proof.
  induction s as [|a s IH]; simpl; [|rewrite ascii_compare_refl]; auto.
Qed.

Lemma string_compare_lt_trans s t u :
  String.compare s t = Lt -> String.compare t u = Lt -> String.compare s u = Lt.
Proof.
  revert t u.
  induction s as [|a s IH]; intros [|b t] [|c u]; simpl; try easy.
  destruct (Ascii.compare a b) eqn:E1; destruct (Ascii.compare b c) eqn:E2;
    try easy.
  - apply Ascii.compare_eq_iff in E1 as ->. rewrite E2. apply IH.
  - apply Ascii.compare_eq_iff in E1 as ->. now rewrite E2.
  - apply Ascii.compare_eq_iff in E2 as ->. now rewrite E1.
  - now rewrite (ascii_compare_lt_trans _ _ _ E1 E2).
Qed.

Lemma compare_refl p : compare p p = Eq.
Proof. apply lex_refl, string_compare_refl. Qed.

Lemma compare_eq p q : compare p q = Eq -> p = q.
Proof. apply lex_eq, String.compare_eq_iff. Qed.

Lemma compare_antisym p q : compare p q = CompOpp (compare q p).
Proof. apply lex_antisym, String.compare_antisym. Qed.

Lemma compare_lt_trans p q r :
  compare p q = Lt -> compare q r = Lt -> compare p r = Lt.
Proof.
  apply (lex_lt_trans String.compare).
  - apply String.compare_eq_iff.
  - apply string_compare_lt_trans.
Qed.

#[export] Instance le_dec : RelDecision le.
Proof. intros p q. unfold le. destruct (compare p q); [left|left|right]; congruence. Defined.

#[export] Instance le_trans : Transitive le.
Proof.
  intros p q r. unfold le. intros Hpq Hqr.
  destruct (compare p q) eqn:E1; [| |easy].
  - now apply compare_eq in E1 as ->.
  - destruct (compare q r) eqn:E2; [| |easy].
    + apply compare_eq in E2 as <-. now rewrite E1.
    + now rewrite (compare_lt_trans _ _ _ E1 E2).
Qed.

#[export] Instance le_antisym : AntiSymm (=) le.
Proof.
  intros p q. unfold le. rewrite (compare_antisym q p).
  destruct (compare p q) eqn:E; simpl; try easy.
  intros _ _. now apply compare_eq.
Qed.

Lemma ltb_false_le x y : ltb y x = false -> le x y.
Proof.
  unfold ltb, le. rewrite (compare_antisym x y).
  destruct (compare y x); simpl; congruence.
Qed.

Lemma ltb_true_le x y : ltb y x = true -> le y x.
Proof. unfold ltb, le. destruct (compare y x); congruence. Qed.

Lemma insert_sorted_perm x l : insert_sorted x l ≡ₚ x :: l.
Proof.
  induction l as [|y l IH]; simpl; [done|].
  destruct (ltb y x); [|done].
  rewrite IH. apply Permutation_swap.
Qed.

Lemma sorted_perm l : sorted l ≡ₚ l.
Proof.
  induction l as [|x l IH]; simpl; [done|].
  now rewrite insert_sorted_perm, IH.
Qed.

Lemma insert_sorted_sorted x l :
  StronglySorted le l -> StronglySorted le (insert_sorted x l).
Proof.
  induction 1 as [|y l Hl IH Hy]; simpl.
  - repeat constructor.
  - destruct (ltb y x) eqn:E.
    + constructor; [exact IH|].
      rewrite insert_sorted_perm. constructor; [|exact Hy].
      now apply ltb_true_le.
    + apply ltb_false_le in E.
      constructor; [now constructor|].
      constructor; [exact E|].
      eapply Forall_impl; [exact Hy|]. intros z Hz. now transitivity y.
Qed.

Lemma sorted_sorted l : StronglySorted le (sorted l).
Proof.
  induction l as [|x l IH]; simpl; [constructor|].
  now apply insert_sorted_sorted.
Qed.

(** The result of [sorted] depends on the paths, not on the order in
    which they were produced. *)
Lemma sorted_order_independent l l' : l ≡ₚ l' -> sorted l = sorted l'.
Proof.
  intros H. apply (StronglySorted_unique le); auto using sorted_sorted.
  now rewrite !sorted_perm.
Qed.

(** The order is the one of the parts, not of the rendered strings: a
    directory name that extends another with a character below [/] sorts
    after it as a path and before it as a string. *)
Remark parts_order_is_not_string_order :
  compare ["raw"; "2011"; "x.cdf.gz"] ["raw"; "2011-old"; "a.cdf.gz"] = Lt /\
  String.compare (str ["raw"; "2011"; "x.cdf.gz"])
                 (str ["raw"; "2011-old"; "a.cdf.gz"]) = Gt.
Proof. split; reflexivity. Qed.

End OrderFacts.

(** * The Extract stage *)

Module ExtractFacts.
Import PyStr PurePath Builtins Extract OrderFacts PurePathFacts.

Section Run.
Variable gunzip : bytes -> option bytes.
Variables data_raw_dir data_extracted_dir : path.

Local Abbreviation archive_paths := (archive_paths data_raw_dir).
Local Abbreviation data_raw_filenames := (data_raw_filenames data_raw_dir).
Local Abbreviation open_rb := (open_rb data_raw_dir).
Local Abbreviation process_file := (process_file gunzip data_raw_dir data_extracted_dir).
Local Abbreviation process_files := (process_files gunzip data_raw_dir data_extracted_dir).
Local Abbreviation extract_and_process_files :=
  (extract_and_process_files gunzip data_raw_dir data_extracted_dir).
Local Abbreviation payload := (payload gunzip data_raw_dir).
Local Abbreviation output_filename := (output_filename data_extracted_dir).

Lemma archive_paths_dirs raw :
  Forall (fun e => is_dir (snd e)) raw ->
  archive_paths raw = inr (selected data_raw_dir raw).
Proof.
  induction 1 as [|[d n] raw Hn _ IH]; [reflexivity|].
  destruct n as [c|entries]; [destruct Hn|].
  simpl. rewrite IH. reflexivity.
Qed.

Lemma archive_paths_file raw :
  Exists (fun e => is_file (snd e)) raw ->
  exists dirname c, (dirname, File c) ∈ raw /\
    archive_paths raw = inl (NotADirectoryError (truediv data_raw_dir dirname)).
Proof.
  induction raw as [|[d n] raw IH]; intros H; [inversion H|].
  destruct n as [c|entries].
  - exists d, c. split; [left|reflexivity].
  - apply Exists_cons in H as [[]|H].
    destruct (IH H) as (d' & c & Hin & Heq).
    exists d', c. split; [now right|].
    simpl. rewrite Heq. reflexivity.
Qed.

Lemma archive_paths_inr raw ps :
  archive_paths raw = inr ps ->
  Forall (fun e => is_dir (snd e)) raw /\ ps = selected data_raw_dir raw.
Proof.
  revert ps. induction raw as [|[d n] raw IH]; intros ps H.
  - split; [constructor|]. injection H as <-. reflexivity.
  - destruct n as [c|entries]; [discriminate H|].
    simpl in H. destruct (archive_paths raw) as [e|ps'] eqn:E; [discriminate H|].
    destruct (IH ps' eq_refl) as [F ->].
    split; [constructor; [exact I|exact F]|].
injection H as <-. reflexivity.
Qed.

Lemma elem_of_selected raw p :
  p ∈ selected data_raw_dir raw <->
  exists dirname entries filename,
    (dirname, Dir entries) ∈ raw /\
    filename ∈ map fst entries /\
    endswith filename ".cdf.gz" = true /\
    p = truediv (truediv data_raw_dir dirname) filename.
Proof.
  unfold selected. rewrite list_elem_of_In, in_flat_map. split.
  - intros ([d [c|es]] & Hin & Hp); simpl in Hp; [destruct Hp|].
    apply in_map_iff in Hp as (f & <- & Hf).
    apply filter_In in Hf as [Hf He].
    exists d, es, f. rewrite !list_elem_of_In. auto.
  - intros (d & es & f & Hin & Hf & He & ->).
    exists (d, Dir es). rewrite <- list_elem_of_In. split; [exact Hin|].
    simpl. apply in_map, filter_In. rewrite <- list_elem_of_In. auto.
Qed.

(** *** One pass of the loop body *)

Lemma process_file_returned raw st f d :
  payload raw f d ->
  process_file raw st f =
    (State (<[stem f := d]> (extracted st))
       (stdout st ++ Extracting f (output_filename f) ::
          (if exists_ st (stem f) then [Overriding f] else [])),
     Returned).
Proof.
  intros (c & Hc & Hd). unfold process_file. rewrite Hc, Hd.
  change (exists_ (print st (Extracting f (output_filename f))) (stem f))
    with (exists_ st (stem f)).
  unfold write_file, print, output_filename.
  destruct (exists_ st (stem f)); simpl; rewrite insert_insert_eq;
    [rewrite <- app_assoc|]; reflexivity.
Qed.

Lemma process_file_returned_inv raw st f st' :
  process_file raw st f = (st', Returned) -> exists d, payload raw f d.
Proof.
  unfold process_file, payload. intros H.
  destruct (open_rb raw f) as [e|c]; [congruence|].
  destruct (gunzip c) as [d|] eqn:G; [|congruence]. exists d, c. auto.
Qed.

Lemma process_files_returned_inv raw st files st' :
  process_files raw st files = (st', Returned) ->
  exists datas, Forall2 (payload raw) files datas.
Proof.
  revert st. induction files as [|f files IH]; intros st H.
  - exists []. constructor.
  - simpl in H. destruct (process_file raw st f) as [st1 [|e]] eqn:E; [|congruence].
    apply process_file_returned_inv in E as [d Hd].
    destruct (IH _ H) as [datas Hdatas].
    exists (d :: datas). now constructor.
Qed.

Lemma process_files_returned raw st files datas :
  Forall2 (payload raw) files datas ->
  exists out,
    process_files raw st files =
      (State (apply_writes (extracted st) (zip files datas)) (stdout st ++ out),
       Returned) /\
    sources out = files /\
    (Forall (fun f => is_Some (extracted st !! stem f)) files ->
     out = flat_map (fun f => [Extracting f (output_filename f); Overriding f]) files).
Proof.
  intros H. revert st.
  induction H as [|f d files datas Hd _ IH]; intros st.
  - exists []. simpl. rewrite app_nil_r. destruct st; auto.
  - simpl. rewrite (process_file_returned _ st _ _ Hd).
    match goal with |- context [process_files raw ?s _] =>
      destruct (IH s) as (out & Hrun & Hsrc & Hall) end.
    rewrite Hrun. simpl.
    eexists. split; [rewrite <- app_assoc; reflexivity|]. split.
    + simpl. destruct (exists_ st (stem f)); simpl; now rewrite Hsrc.
    + intros Hex. apply Forall_cons in Hex as [Hf Hex].
      unfold exists_. rewrite bool_decide_eq_true_2 by exact Hf.
      simpl. do 2 f_equal. apply Hall.
      eapply Forall_impl; [exact Hex|]. intros g Hg. simpl.
      apply lookup_insert_is_Some'. now right.
Qed.

Lemma apply_writes_union m ws : apply_writes m ws = apply_writes ∅ ws ∪ m.
Proof.
  revert m. induction ws as [|[f d] ws IH]; intros m.
  - unfold apply_writes. simpl. symmetry. apply (left_id_L ∅ (∪)).
  - unfold apply_writes. simpl. fold (apply_writes (<[stem f := d]> m) ws).
    fold (apply_writes (<[stem f := d]> ∅) ws).
    rewrite IH, (IH (<[stem f := d]> ∅)).
    rewrite (insert_union_singleton_l m), insert_empty.
    rewrite <- (assoc_L (∪)). reflexivity.
Qed.

Lemma apply_writes_idemp m ws :
  apply_writes (apply_writes m ws) ws = apply_writes m ws.
Proof.
  rewrite (apply_writes_union (apply_writes m ws)), (apply_writes_union m).
  rewrite (assoc_L (∪)). f_equal. apply (idemp_L (∪)).
Qed.

Lemma apply_writes_is_Some m ws k :
  is_Some (m !! k) -> is_Some (apply_writes m ws !! k).
Proof.
  revert m. induction ws as [|[f d] ws IH]; intros m H; simpl; [exact H|].
  apply IH, lookup_insert_is_Some'. now right.
Qed.

Lemma apply_writes_outputs m files datas :
  List.length files = List.length datas ->
  Forall (fun f => is_Some (apply_writes m (zip files datas) !! stem f)) files.
Proof.
  revert m datas. induction files as [|f files IH]; intros m [|d datas] Hlen;
    simpl in *; try constructor; try discriminate.
  - apply apply_writes_is_Some, lookup_insert_is_Some'. now left.
  - apply IH. lia.
Qed.

(** *** Listings of one tree in different orders *)

Lemma filter_perm {A} (f : A -> bool) (l l' : list A) :
  l ≡ₚ l' -> List.filter f l ≡ₚ List.filter f l'.
Proof.
  induction 1 as [|x l l' _ IH|x y l|l1 l2 l3 _ IH1 _ IH2]; simpl.
  - done.
  - destruct (f x); [now constructor|exact IH].
  - destruct (f x), (f y); try done. apply Permutation_swap.
  - now transitivity (List.filter f l2).
Qed.

Lemma same_listing_dirs raw raw' :
  same_listing raw raw' ->
  Forall (fun e => is_dir (snd e)) raw ->
  Forall (fun e => is_dir (snd e)) raw'.
Proof.
  intros (mid & Hperm & Hsame) Hraw. rewrite Hperm in Hraw. clear Hperm.
  induction Hsame as [|[d n] [d' n'] mid raw' [_ Hn] _ IH]; [constructor|].
  apply Forall_cons in Hraw as [Hd Hraw].
  constructor; [|auto].
  destruct n, n'; simpl in *; auto.
Qed.

Lemma same_listing_selected raw raw' :
  same_listing raw raw' ->
  selected data_raw_dir raw ≡ₚ selected data_raw_dir raw'.
Proof.
  intros (mid & Hperm & Hsame). unfold selected at 1.
  rewrite Hperm. clear Hperm. fold (selected data_raw_dir mid).
  induction Hsame as [|[d n] [d' n'] mid raw' [Hd Hn] _ IH]; [done|].
  simpl in *. subst d'. apply Permutation_app; [|exact IH].
  destruct n as [c|es], n' as [c'|es']; simpl in Hn; try done.
  apply Permutation_map, filter_perm, Permutation_map, Hn.
Qed.

Lemma data_raw_filenames_inr raw files :
  data_raw_filenames raw = inr files ->
  Forall (fun e => is_dir (snd e)) raw /\
  files = sorted (selected data_raw_dir raw).
Proof.
  unfold Extract.data_raw_filenames. intros H.
  destruct (archive_paths raw) as [e|ps] eqn:E; [discriminate H|].
  apply archive_paths_inr in E as [F ->]. split; [exact F|congruence].
Qed.

Lemma sources_both files :
  sources (flat_map (fun f => [Extracting f (output_filename f); Overriding f]) files)
  = files.
Proof. induction files as [|f files IH]; simpl; [|rewrite IH]; reflexivity. Qed.

(** *** The claims about Extract *)

(** C4. Every archive that Extract selects is written under its own name
    less the final [.gz]: when the selected archives open and decompress,
    the run returns after one write of the decompressed content per
    archive, in processing order.  Running Extract again on the unchanged
    raw tree returns too, announces an overwrite for every archive and
    leaves the extracted directory byte for byte as it was. *)
Theorem extract_strips_gz_and_rerun_is_identical raw st files datas :
  data_raw_filenames raw = inr files ->
  Forall2 (payload raw) files datas ->
  Forall (fun f => name f = stem f +:+ ".gz") files /\
  exists st' st'',
    extract_and_process_files raw st = (st', Returned) /\
    extracted st' = apply_writes (extracted st) (zip files datas) /\
    extract_and_process_files raw st' = (st'', Returned) /\
    extracted st'' = extracted st' /\
    stdout st'' =
      (stdout st' ++
       flat_map (fun f => [Extracting f (output_filename f); Overriding f]) files)%list.
Proof.
  intros Hfiles Hdatas. split.
  - apply data_raw_filenames_inr in Hfiles as [_ ->].
    apply Forall_forall. intros f Hf.
    rewrite sorted_perm in Hf.
    apply elem_of_selected in Hf as (d & es & fn & _ & _ & Hend & ->).
    apply stem_cdf_gz. now rewrite name_truediv.
  - unfold Extract.extract_and_process_files. rewrite Hfiles.
    destruct (process_files_returned raw st _ _ Hdatas) as (out & Hrun & _ & _).
    destruct (process_files_returned raw
                (State (apply_writes (extracted st) (zip files datas))
                       (stdout st ++ out)) _ _ Hdatas)
      as (out' & Hrun' & _ & Hall).
    eexists _, _. split; [exact Hrun|]. split; [reflexivity|].
    split; [exact Hrun'|]. simpl. split.
    + apply apply_writes_idemp.
    + f_equal. apply Hall, apply_writes_outputs.
      eapply Forall2_length, Hdatas.
Qed.

(** C5. When the output of an archive is already there, the loop body
    prints the overriding notice and carries on: its outcome is the one it
    would have had without the existing file, and for an archive that
    opens and decompresses it returns with the old content replaced. *)
Theorem existing_output_is_overwritten raw st f :
  is_Some (extracted st !! stem f) ->
  snd (process_file raw st f) =
    snd (process_file raw (State (delete (stem f) (extracted st)) (stdout st)) f) /\
  stdout (fst (process_file raw st f)) =
    (stdout st ++ [Extracting f (output_filename f); Overriding f])%list /\
  (forall d, payload raw f d ->
     process_file raw st f =
       (State (<[stem f := d]> (extracted st))
              (stdout st ++ [Extracting f (output_filename f); Overriding f]),
        Returned)).
Proof.
  intros Hex.
  assert (Hb : exists_ st (stem f) = true)
    by (unfold exists_; now apply bool_decide_eq_true_2).
  split; [|split].
  - unfold Extract.process_file.
    destruct (open_rb raw f) as [e|c]; [reflexivity|].
    destruct (gunzip c); reflexivity.
  - unfold Extract.process_file.
    change (exists_ (print st (Extracting f (output_filename f))) (stem f))
      with (exists_ st (stem f)).
    rewrite Hb. unfold output_filename.
    destruct (open_rb raw f) as [e|c]; [|destruct (gunzip c)]; simpl;
      now rewrite <- app_assoc.
  - intros d Hd. rewrite (process_file_returned _ _ _ _ Hd), Hb. reflexivity.
Qed.

(** C9. The archives are processed in sorted path order (paths compare
    part by part): the list the loop runs over is sorted, holds exactly
    the selected archives, does not depend on the order in which
    [os.listdir] returned the entries, and a run that returns has printed
    its [Extracting] lines in that order. *)
Theorem extraction_in_sorted_path_order raw files :
  data_raw_filenames raw = inr files ->
  StronglySorted le files /\
  files ≡ₚ selected data_raw_dir raw /\
  (forall raw', same_listing raw raw' -> data_raw_filenames raw' = inr files) /\
  (forall st st', extract_and_process_files raw st = (st', Returned) ->
     sources (stdout st') = (sources (stdout st) ++ files)%list).
Proof.
  intros Hfiles.
  destruct (data_raw_filenames_inr _ _ Hfiles) as [Hdirs ->].
  split; [apply sorted_sorted|]. split; [apply sorted_perm|]. split.
  - intros raw' Hsame. unfold Extract.data_raw_filenames.
    rewrite (archive_paths_dirs _ (same_listing_dirs _ _ Hsame Hdirs)).
    f_equal. apply sorted_order_independent. symmetry.
    now apply same_listing_selected.
  - intros st st'. unfold Extract.extract_and_process_files.
    rewrite Hfiles. intros Hrun.
    destruct (process_files_returned_inv _ _ _ _ Hrun) as [datas Hdatas].
    destruct (process_files_returned raw st _ _ Hdatas) as (out & Hst' & Hsrc & _).
    rewrite Hrun in Hst'. injection Hst' as ->. simpl.
    unfold sources in *. now rewrite omap_app, Hsrc.
Qed.

(** C10. Extract looks exactly two levels below the raw directory and
    only at names ending in [.cdf.gz].  A regular file among the top-level
    entries makes [os.listdir] raise while the list is built: the call ends
    with that error, nothing printed and nothing written.  So a call can
    return only if every top-level entry is a directory, and in that case
    building the list succeeds. *)
Theorem extract_needs_top_level_directories raw st :
  (forall files p, data_raw_filenames raw = inr files -> p ∈ files ->
     exists dirname entries filename,
       (dirname, Dir entries) ∈ raw /\
       filename ∈ map fst entries /\
       endswith filename ".cdf.gz" = true /\
       p = truediv (truediv data_raw_dir dirname) filename) /\
  (Exists (fun e => is_file (snd e)) raw ->
     exists dirname c,
       (dirname, File c) ∈ raw /\
       extract_and_process_files raw st =
         (st, Raised (NotADirectoryError (truediv data_raw_dir dirname)))) /\
  (forall st', extract_and_process_files raw st = (st', Returned) ->
     Forall (fun e => is_dir (snd e)) raw) /\
  (Forall (fun e => is_dir (snd e)) raw ->
     exists files, data_raw_filenames raw = inr files).
Proof.
  split; [|split; [|split]].
  - intros files p Hfiles Hp.
    apply data_raw_filenames_inr in Hfiles as [_ ->].
    rewrite sorted_perm in Hp. now apply elem_of_selected.
  - intros Hfile. apply archive_paths_file in Hfile as (d & c & Hin & Herr).
    exists d, c. split; [exact Hin|].
    unfold Extract.extract_and_process_files, Extract.data_raw_filenames.
    now rewrite Herr.
  - intros st'. unfold Extract.extract_and_process_files.
    destruct (data_raw_filenames raw) as [e|files] eqn:Hfiles; [discriminate|].
    intros _. now apply data_raw_filenames_inr in Hfiles.
  - intros Hdirs. eexists. unfold Extract.data_raw_filenames.
    now rewrite (archive_paths_dirs _ Hdirs).
Qed.

End Run.
(** *** The theorems at the example tree *)

Import ExtractExamples.

Lemma payloads_ok :
  Forall2 (payload toy_gunzip DATA_RAW_DIR raw_ok) files_ok
          [[Byte.x01]; [Byte.x03]; [Byte.x02]].
Proof.
  repeat constructor; eexists; split; vm_compute; reflexivity.
Qed.

Lemma extract_strips_gz_and_rerun_is_identical_witness :
  data_raw_filenames DATA_RAW_DIR raw_ok = inr files_ok /\
  exists st'',
    run raw_ok st0 = (st_after, Returned) /\
    run raw_ok st_after = (st'', Returned) /\
    extracted st'' = extracted st_after.
Proof.
  assert (H : data_raw_filenames DATA_RAW_DIR raw_ok = inr files_ok)
    by (vm_compute; reflexivity).
  split; [exact H|].
  destruct (extract_strips_gz_and_rerun_is_identical
              toy_gunzip DATA_RAW_DIR DATA_EXTRACTED_DIR raw_ok st0
              files_ok _ H payloads_ok)
    as (_ & st' & st'' & Hrun & _ & Hrun' & Hsame & _).
  assert (E : st' = st_after).
  { assert (R : run raw_ok st0 = (st_after, Returned))
      by (vm_compute; reflexivity).
    unfold run in R. rewrite R in Hrun. now injection Hrun. }
  subst st'. exists st''. auto.
Defined.

Lemma existing_output_is_overwritten_witness :
  is_Some (extracted st_stale !! PurePath.stem archive_a) /\
  process_file toy_gunzip DATA_RAW_DIR DATA_EXTRACTED_DIR raw_ok st_stale archive_a =
    (State (<["a.cdf" := [Byte.x01]]> (extracted st_stale))
           [Extracting archive_a (PurePath.truediv DATA_EXTRACTED_DIR "a.cdf");
            Overriding archive_a],
     Returned).
Proof.
  assert (H : is_Some (extracted st_stale !! PurePath.stem archive_a))
    by (vm_compute; eauto).
  split; [exact H|].
  apply (proj2 (proj2 (existing_output_is_overwritten
           toy_gunzip DATA_RAW_DIR DATA_EXTRACTED_DIR raw_ok st_stale archive_a H))).
  exists (gz [Byte.x01]). split; vm_compute; reflexivity.
Defined.

Lemma same_listing_shuffled : same_listing raw_ok raw_shuffled.
Proof.
  exists [ ("2011", Dir [ ("z.cdf.gz", File (gz [Byte.x03]));
                          ("a.cdf.gz", File (gz [Byte.x01])) ]);
           ("2012", Dir [ ("b.cdf.gz", File (gz [Byte.x02]));
                          ("notes.txt", File [Byte.x00]) ]) ].
  split; [apply Permutation_swap|].
  repeat constructor; simpl; apply Permutation_swap.
Qed.

Lemma extraction_in_sorted_path_order_witness :
  data_raw_filenames DATA_RAW_DIR raw_ok = inr files_ok /\
  data_raw_filenames DATA_RAW_DIR raw_shuffled = inr files_ok.
Proof.
  assert (H : data_raw_filenames DATA_RAW_DIR raw_ok = inr files_ok)
    by (vm_compute; reflexivity).
  split; [exact H|].
  apply (proj1 (proj2 (proj2 (extraction_in_sorted_path_order
           toy_gunzip DATA_RAW_DIR DATA_EXTRACTED_DIR raw_ok files_ok H)))).
  exact same_listing_shuffled.
Defined.

Lemma extract_needs_top_level_directories_witness :
  Exists (fun e => is_file (snd e)) raw_with_top_level_file /\
  exists dirname c,
    (dirname, File c) ∈ raw_with_top_level_file /\
    run raw_with_top_level_file st_stale =
      (st_stale,
       Raised (NotADirectoryError (PurePath.truediv DATA_RAW_DIR dirname))).
Proof.
  assert (H : Exists (fun e => is_file (snd e)) raw_with_top_level_file)
    by (do 2 apply Exists_cons_tl; apply Exists_cons_hd; exact I).
  split; [exact H|].
  exact (proj1 (proj2 (extract_needs_top_level_directories
           toy_gunzip DATA_RAW_DIR DATA_EXTRACTED_DIR
           raw_with_top_level_file st_stale)) H).
Defined.

End ExtractFacts.

(** * The three ingest call patterns *)

Module HandlersFacts.
Import Handlers HandlersExamples.

Section Patterns.
Variable root : list decoded_file.
Hypothesis distinct_paths : NoDup (map file_path root).

Lemma find_by_path (fs : list decoded_file) (f : decoded_file) :
  NoDup (map file_path fs) -> f ∈ fs ->
  List.find (fun g => String.eqb (file_path g) (file_path f)) fs = Some f.
Proof.
  induction fs as [|g fs IH]; intros Hnd Hin; [inversion Hin|].
  apply NoDup_cons in Hnd as [Hg Hnd]. simpl.
  destruct (String.eqb_spec (file_path g) (file_path f)) as [E|E].
  - apply elem_of_cons in Hin as [->|Hin]; [reflexivity|].
    destruct Hg. rewrite E. apply list_elem_of_fmap. now exists f.
  - apply elem_of_cons in Hin as [->|Hin]; [congruence|auto].
Qed.

Lemma read_path_member (f : decoded_file) :
  f ∈ root -> read_path root (file_path f) = parse f.
Proof.
  intros Hin. unfold read_path. now rewrite (find_by_path _ _ distinct_paths Hin).
Qed.

(** Listing the paths and reading them back visits the files that the
    one-pass filtered read visits, in the same order. *)
Lemma read_listed_paths k from_date to_date (fs : list decoded_file) :
  fs ⊆ root ->
  read_radem_cdfs root
    (map file_path (List.filter (matches k from_date to_date) fs))
  = read_radem_kind_cdfs k from_date to_date fs.
Proof.
  induction fs as [|f fs IH]; intros Hsub; [reflexivity|].
  assert (Hfs : fs ⊆ root) by (intros g Hg; apply Hsub; now right).
  simpl. destruct (matches k from_date to_date f); [|auto].
  simpl. rewrite read_path_member by (apply Hsub; left).
  now rewrite (IH Hfs).
Qed.

End Patterns.

Lemma read_unfiltered_in_window k from_date to_date (fs : list decoded_file) :
  Forall (fun f => kind_eqb (file_kind f) k = true ->
                   in_range (Some from_date) (Some to_date) (file_date f) = true) fs ->
  read_radem_kind_cdfs k None None fs
  = read_radem_kind_cdfs k (Some from_date) (Some to_date) fs.
Proof.
  induction 1 as [|f fs Hf _ IH]; [reflexivity|].
  assert (Hm : matches k None None f
               = matches k (Some from_date) (Some to_date) f).
  { unfold matches. destruct (kind_eqb (file_kind f) k); [|reflexivity].
    now rewrite (Hf eq_refl). }
  simpl. now rewrite IH, Hm.
Qed.

(** C1, as the notebook has it.  Listing the date-filtered paths and
    reading them (option 2) and reading the directory with the date range
    (option 3) give the same table, or the same error, whatever the files
    and the range.  Reading the full directory (option 1) takes no date
    range: it gives that table when every file of the kind in the
    directory is dated within the range. *)
Theorem filtered_ingest_patterns_agree schema policy root k from_date to_date :
  NoDup (map file_path root) ->
  ingest_prefiltered_paths schema policy root k from_date to_date
  = ingest_combined_filtered schema policy root k from_date to_date /\
  (Forall (fun f => kind_eqb (file_kind f) k = true ->
                    in_range (Some from_date) (Some to_date) (file_date f) = true)
          root ->
   ingest_full_directory schema policy root k
   = ingest_combined_filtered schema policy root k from_date to_date).
Proof.
  intros Hnd.
  unfold ingest_prefiltered_paths, ingest_combined_filtered,
    ingest_full_directory, get_radem_cdf_paths.
  split.
  - now rewrite (read_listed_paths root Hnd).
  - intros Hin. now rewrite (read_unfiltered_in_window _ _ _ _ Hin).
Qed.

Lemma filtered_ingest_patterns_agree_witness :
  NoDup (map file_path in_window_only) /\
  ingest_prefiltered_paths two_columns KeepLast in_window_only Science
    december_1 january_31
  = ingest_combined_filtered two_columns KeepLast in_window_only Science
      december_1 january_31 /\
  ingest_full_directory two_columns KeepLast in_window_only Science
  = ingest_combined_filtered two_columns KeepLast in_window_only Science
      december_1 january_31.
Proof.
  assert (Hnd : NoDup (map file_path in_window_only)).
  { simpl. repeat constructor; rewrite ?elem_of_cons, ?elem_of_nil;
      intuition discriminate. }
  split; [exact Hnd|].
  destruct (filtered_ingest_patterns_agree two_columns KeepLast in_window_only
              Science december_1 january_31 Hnd) as [H23 H13].
  split; [exact H23|]. apply H13.
  repeat constructor.
Defined.

(** C1 as stated fails: with one science file dated the day before the
    window, all files valid, the full-directory read keeps that file's
    rows and the two filtered reads do not. *)
Lemma full_directory_ingest_differs :
  Forall (fun f => is_Some (file_rows f)) two_days /\
  NoDup (map file_path two_days) /\
  ingest_full_directory two_columns KeepFirst two_days Science
  <> ingest_prefiltered_paths two_columns KeepFirst two_days Science
       december_1 january_31 /\
  ingest_full_directory two_columns KeepLast two_days Science
  <> ingest_combined_filtered two_columns KeepLast two_days Science
       december_1 january_31.
Proof.
  split; [repeat constructor; eauto|].
  split.
  { simpl. repeat constructor; rewrite ?elem_of_cons, ?elem_of_nil;
      intuition discriminate. }
  split; vm_compute; discriminate.
Qed.

End HandlersFacts.

(** * What follows each read-back in the notebooks *)

Module NotebookFacts.
Import PurePath Handlers Pandas Notebook NotebookExamples.

Lemma eq_frames_same (a b : table) :
  indexed_same a b = true -> exists cmp, eq_frames a b = inr cmp.
Proof. unfold eq_frames. intros ->. eauto. Qed.

Lemma eq_frames_differ (a b : table) :
  indexed_same a b = false -> exists msg, eq_frames a b = inl (ValueError msg).
Proof. unfold eq_frames. intros ->. eauto. Qed.

(** C7, as the notebooks have it.  In the two data-transformation
    notebooks the table read back from HDF5 is compared with the original
    in the cell that reads it: frames with different labels stop the run
    with an error, otherwise the result of the comparison is printed and
    the run goes on.  The table read back from CSV is assigned and
    compared with nothing, so the run completes whatever was read.  The
    trajectory notebook reassigns its frames from both stores and compares
    nothing.  No cell changes the original table or repairs a store. *)
Theorem only_the_hdf5_reload_is_compared :
  (forall (disk : Type)
          (write_hdf : table -> path -> disk -> disk)
          (read_hdf : path -> disk -> table)
          (write_csv : table -> path -> disk -> disk)
          (read_csv : path -> disk -> table)
          (hdf5 csv : path) (s : kernel disk),
     let files1 := write_hdf (sc_df s) hdf5 (files s) in
     let loaded := read_hdf hdf5 files1 in
     let files2 := write_csv (sc_df s) csv files1 in
     let r := run_all (persist_and_reload write_hdf read_hdf write_csv read_csv
                         hdf5 csv) s in
     sc_df (fst r) = sc_df s /\
     sc_df_hdf (fst r) = Some loaded /\
     (indexed_same loaded (sc_df s) = false ->
        (exists msg, snd r = Raised (ValueError msg)) /\
        files (fst r) = files1 /\
        sc_df_csv (fst r) = sc_df_csv s /\
        printed (fst r) = printed s) /\
     (indexed_same loaded (sc_df s) = true ->
        snd r = Completed /\
        files (fst r) = files2 /\
        sc_df_csv (fst r) = Some (read_csv csv files2) /\
        exists cmp,
          eq_frames loaded (sc_df s) = inr cmp /\
          printed (fst r) = (printed s ++ [str_of_bool (py_all cmp)])%list)) /\
  (forall (disk frame : Type)
          (to_hdf : frame -> string -> string -> disk -> disk)
          (pd_read_hdf : string -> string -> disk -> frame)
          (to_csv : frame -> string -> disk -> disk)
          (pd_read_csv : string -> disk -> frame)
          (head : frame -> frame) (s : tkernel disk frame),
     let d := tfiles (saving_to_csv disk frame to_csv
                        (saving_to_hdf5 disk frame to_hdf s)) in
     let r := trajectory_persist_and_reload disk frame
                to_hdf pd_read_hdf to_csv pd_read_csv head s in
     tfiles r = d /\
     df_juice r = pd_read_csv "../data/juice_trajectory.csv" d /\
     df_integral r = pd_read_csv "../data/integral_trajectory.csv" d /\
     displayed r =
       (displayed s ++
        [head (pd_read_hdf "../data/integral_trajectory.h5" "trajectory" d);
         head (pd_read_csv "../data/integral_trajectory.csv" d)])%list).
Proof.
  split.
  - intros disk write_hdf read_hdf write_csv read_csv hdf5 csv s.
    cbv zeta.
    unfold persist_and_reload, run_all, writing_to_hdf5, reading_from_hdf5,
      writing_to_csv, reading_from_csv.
    simpl.
    destruct (indexed_same
                (read_hdf hdf5 (write_hdf (sc_df s) hdf5 (files s))) (sc_df s))
      eqn:Hsame.
    + destruct (eq_frames_same _ _ Hsame) as [cmp Hcmp]. rewrite Hcmp. simpl.
      repeat split; try discriminate; eauto.
    + destruct (eq_frames_differ _ _ Hsame) as [msg Hmsg]. rewrite Hmsg. simpl.
      repeat split; try discriminate; eauto.
  - intros disk frame to_hdf pd_read_hdf to_csv pd_read_csv head s.
    cbv zeta. unfold trajectory_persist_and_reload. simpl.
    rewrite <- app_assoc. auto.
Qed.

Lemma only_the_hdf5_reload_is_compared_witness :
  indexed_same
    (load_table RADEM_HDF5 (keep_table counts RADEM_HDF5 ∅)) counts = true /\
  snd radem_run = Completed /\
  sc_df_csv (fst radem_run) = Some counts_rounded.
Proof.
  assert (H : indexed_same
                (load_table RADEM_HDF5 (keep_table counts RADEM_HDF5 ∅))
                counts = true) by (vm_compute; reflexivity).
  split; [exact H|].
  destruct (proj1 only_the_hdf5_reload_is_compared store
              keep_table load_table keep_table load_rounded
              RADEM_HDF5 RADEM_CSV fresh)
    as (_ & _ & _ & Hsame).
  destruct (Hsame H) as (Hdone & _ & Hcsv & _).
  unfold radem_run. split; [exact Hdone|].
  rewrite Hcsv. vm_compute. reflexivity.
Defined.

(** C7 as stated fails: the text store gives back other values than were
    written, and the notebook runs to its end; the only line printed is
    the one of the HDF5 cell. *)
Lemma csv_mismatch_is_not_detected :
  sc_df_csv (fst radem_run) = Some counts_rounded /\
  counts_rounded <> sc_df (fst radem_run) /\
  snd radem_run = Completed /\
  printed (fst radem_run) = ["True"].
Proof.
  repeat split; try (vm_compute; reflexivity).
  vm_compute. discriminate.
Qed.

(** The printed comparison is [all] over the frame [sc_df_hdf == sc_df],
    so over its column labels: with labels that agree it prints [True]
    also when cells differ. *)
Remark printed_comparison_ignores_cells :
  sc_df_hdf (fst radem_run_rounding_hdf5) = Some counts_rounded /\
  snd radem_run_rounding_hdf5 = Completed /\
  printed (fst radem_run_rounding_hdf5) = ["True"].
Proof. repeat split; vm_compute; reflexivity. Qed.

End NotebookFacts.

(** * Extract: failures, shared names and what is left alone *)

Module ExtractEdgeFacts.
Import PyStr PurePath Builtins Extract OrderFacts PurePathFacts ExtractFacts.
Import ExtractExamples ExtractTrees.

Section Run.
Variable gunzip : bytes -> option bytes.
Variables data_raw_dir data_extracted_dir : path.

Local Abbreviation data_raw_filenames := (data_raw_filenames data_raw_dir).
Local Abbreviation open_rb := (open_rb data_raw_dir).
Local Abbreviation process_file := (process_file gunzip data_raw_dir data_extracted_dir).
Local Abbreviation process_files := (process_files gunzip data_raw_dir data_extracted_dir).
Local Abbreviation extract_and_process_files :=
  (extract_and_process_files gunzip data_raw_dir data_extracted_dir).
Local Abbreviation payload := (payload gunzip data_raw_dir).
Local Abbreviation output_filename := (output_filename data_extracted_dir).

Lemma process_files_app raw st pre post :
  process_files raw st (pre ++ post) =
  match process_files raw st pre with
  | (s, Returned) => process_files raw s post
  | stopped => stopped
  end.
Proof.
  revert st. induction pre as [|f pre IH]; intros st; simpl.
  - reflexivity.
  - destruct (process_file raw st f) as [s [|e]]; [apply IH|reflexivity].
Qed.

(** The state and the lines printed once the archives [pre] are done. *)
Lemma process_files_prefix raw st pre datas f post :
  Forall2 (payload raw) pre datas ->
  exists out,
    sources out = pre /\
    process_files raw st (pre ++ f :: post) =
    match process_file raw
            (State (apply_writes (extracted st) (zip pre datas))
                   (stdout st ++ out)) f with
    | (s, Returned) => process_files raw s post
    | stopped => stopped
    end.
Proof.
  intros Hpre.
  destruct (process_files_returned gunzip data_raw_dir data_extracted_dir
              raw st _ _ Hpre) as (out & Hrun & Hsrc & _).
  exists out. split; [exact Hsrc|].
  rewrite process_files_app. unfold process_files in *. rewrite Hrun.
  reflexivity.
Qed.

Lemma sources_snoc out f o rest :
  (forall l, l ∈ rest -> exists g, l = Overriding g) ->
  sources (out ++ Extracting f o :: rest) = (sources out ++ [f])%list.
Proof.
  intros Hrest. unfold sources. rewrite omap_app. f_equal. simpl. f_equal.
  induction rest as [|l rest IH]; [reflexivity|].
  destruct (Hrest l) as [g ->]; [left|]. simpl. apply IH.
  intros l' Hl'. apply Hrest. now right.
Qed.

Lemma sources_after_notice st f :
  sources (stdout (if exists_ (print st (Extracting f (output_filename f))) (stem f)
                   then print (print st (Extracting f (output_filename f)))
                              (Overriding f)
                   else print st (Extracting f (output_filename f))))
  = (sources (stdout st) ++ [f])%list.
Proof.
  unfold sources.
  destruct (exists_ _ _); simpl; rewrite ?omap_app; simpl;
    rewrite ?app_nil_r; reflexivity.
Qed.

(** X1. An archive that opens but is not a gzip stream ends the run with
    [BadGzipFile]: the archives sorted before it have been written, its
    own output file has been emptied (the output is opened for writing
    before anything is decompressed), and no later archive is announced
    or written. *)
Theorem corrupt_archive_stops_the_run raw st pre datas f c post :
  data_raw_filenames raw = inr (pre ++ f :: post)%list ->
  Forall2 (payload raw) pre datas ->
  open_rb raw f = inr c ->
  gunzip c = None ->
  exists st',
    extract_and_process_files raw st = (st', Raised (BadGzipFile f)) /\
    extracted st' =
      <[stem f := []]> (apply_writes (extracted st) (zip pre datas)) /\
    sources (stdout st') = (sources (stdout st) ++ pre ++ [f])%list.
Proof.
  intros Hfiles Hpre Hc Hg.
  unfold Extract.extract_and_process_files. rewrite Hfiles.
  destruct (process_files_prefix raw st pre datas f post Hpre)
    as (out & Hsrc & ->).
  unfold Extract.process_file. rewrite Hc, Hg.
  eexists. split; [reflexivity|]. split.
  { destruct (exists_ _ _); reflexivity. }
  unfold write_file. cbn [stdout].
  rewrite sources_after_notice. cbn [stdout].
  unfold sources in *. rewrite omap_app, Hsrc. now rewrite <- app_assoc.
Qed.

(** X2. An archive that cannot be opened (a directory whose name ends in
    [.cdf.gz] is selected like a file) ends the run with the error of
    [open]: its [Extracting] line has been printed, the archives sorted
    before it have been written, and its own output file is as the
    earlier archives left it. *)
Theorem unreadable_archive_stops_the_run raw st pre datas f e post :
  data_raw_filenames raw = inr (pre ++ f :: post)%list ->
  Forall2 (payload raw) pre datas ->
  open_rb raw f = inl e ->
  exists st',
    extract_and_process_files raw st = (st', Raised e) /\
    extracted st' = apply_writes (extracted st) (zip pre datas) /\
    sources (stdout st') = (sources (stdout st) ++ pre ++ [f])%list.
Proof.
  intros Hfiles Hpre He.
  unfold Extract.extract_and_process_files. rewrite Hfiles.
  destruct (process_files_prefix raw st pre datas f post Hpre)
    as (out & Hsrc & ->).
  unfold Extract.process_file. rewrite He.
  eexists. split; [reflexivity|]. split.
  - destruct (exists_ _ _); reflexivity.
  - rewrite sources_after_notice. cbn [stdout].
    unfold sources in *. rewrite omap_app, Hsrc. now rewrite <- app_assoc.
Qed.

(** *** Which output files a run touches *)

Lemma process_file_other raw st f k :
  stem f <> k ->
  extracted (fst (process_file raw st f)) !! k = extracted st !! k.
Proof.
  intros Hk. unfold Extract.process_file.
  destruct (open_rb raw f) as [e|c].
  - destruct (exists_ _ _); reflexivity.
  - destruct (gunzip c); cbn [fst extracted write_file];
      rewrite ?lookup_insert_ne by exact Hk;
      destruct (exists_ _ _); reflexivity.
Qed.

Lemma process_file_keeps raw st f k :
  is_Some (extracted st !! k) ->
  is_Some (extracted (fst (process_file raw st f)) !! k).
Proof.
  intros Hk. unfold Extract.process_file.
  destruct (open_rb raw f) as [e|c].
  - destruct (exists_ _ _); exact Hk.
  - destruct (gunzip c); cbn [fst extracted write_file];
      repeat (apply lookup_insert_is_Some'; right);
      destruct (exists_ _ _); exact Hk.
Qed.

Lemma process_files_other raw st files k :
  Forall (fun f => stem f <> k) files ->
  extracted (fst (process_files raw st files)) !! k = extracted st !! k.
Proof.
  intros H. revert st. induction H as [|f files Hf _ IH]; intros st.
  - reflexivity.
  - simpl. pose proof (process_file_other raw st f k Hf) as Hone.
    destruct (process_file raw st f) as [s [|e]]; simpl in *.
    + now rewrite IH.
    + exact Hone.
Qed.

Lemma process_files_keeps raw st files k :
  is_Some (extracted st !! k) ->
  is_Some (extracted (fst (process_files raw st files)) !! k).
Proof.
  revert st. induction files as [|f files IH]; intros st Hk; [exact Hk|].
  simpl. pose proof (process_file_keeps raw st f k Hk) as Hone.
  destruct (process_file raw st f) as [s [|e]]; simpl in *; auto.
Qed.

(** X3. A file of the extracted directory whose name is not the stem of
    any archive one directory below the raw directory has the same
    content after the call as before, however the call ends. *)
Theorem other_outputs_are_untouched raw st k :
  Forall (fun f => stem f <> k) (selected data_raw_dir raw) ->
  extracted (fst (extract_and_process_files raw st)) !! k = extracted st !! k.
Proof.
  intros Hk. unfold Extract.extract_and_process_files.
  destruct (data_raw_filenames raw) as [e|files] eqn:Hfiles; [reflexivity|].
  apply process_files_other.
  apply data_raw_filenames_inr in Hfiles as [_ ->].
  now rewrite sorted_perm.
Qed.

(** X4. The call never removes a file from the extracted directory:
    every name present before is present after, however the call ends.
    Outputs of archives that have left the raw tree stay. *)
Theorem extract_never_removes raw st k :
  is_Some (extracted st !! k) ->
  is_Some (extracted (fst (extract_and_process_files raw st)) !! k).
Proof.
  intros Hk. unfold Extract.extract_and_process_files.
  destruct (data_raw_filenames raw) as [e|files]; [exact Hk|].
  now apply process_files_keeps.
Qed.

(** *** Archives that share a name *)

Lemma payload_functional raw f d d' :
  payload raw f d -> payload raw f d' -> d = d'.
Proof. intros (c & Hc & Hd) (c' & Hc' & Hd'). congruence. Qed.

Lemma apply_writes_other m (ws : list (path * bytes)) k :
  Forall (fun fd => stem (fst fd) <> k) ws ->
  apply_writes m ws !! k = m !! k.
Proof.
  intros H. revert m. induction H as [|[f d] ws Hf _ IH]; intros m.
  - reflexivity.
  - unfold apply_writes in *. simpl. rewrite IH.
    now apply lookup_insert_ne.
Qed.

Lemma zip_stems_other (files : list path) (datas : list bytes) k :
  Forall (fun g => stem g <> k) files ->
  Forall (fun fd => stem (fst fd) <> k) (zip files datas).
Proof.
  intros H. revert datas. induction H as [|g files Hg _ IH]; intros [|d datas];
    simpl; constructor; auto.
Qed.

(** X5. The extracted directory is flat: archives of the same name in
    different subdirectories write the same output file, and after a run
    that returns it holds the content of the one processed last. *)
Theorem last_archive_of_a_name_wins raw st pre f post datas d :
  data_raw_filenames raw = inr (pre ++ f :: post)%list ->
  Forall2 (payload raw) (pre ++ f :: post)%list datas ->
  payload raw f d ->
  Forall (fun g => stem g <> stem f) post ->
  exists st',
    extract_and_process_files raw st = (st', Returned) /\
    extracted st' !! stem f = Some d.
Proof.
  intros Hfiles Hdatas Hd Hpost.
  unfold Extract.extract_and_process_files. rewrite Hfiles.
  destruct (process_files_returned gunzip data_raw_dir data_extracted_dir
              raw st _ _ Hdatas) as (out & Hrun & _ & _).
  eexists. split; [exact Hrun|]. cbn [extracted].
  apply Forall2_app_inv_l in Hdatas as (dpre & drest & Hpre & Hrest & ->).
  apply Forall2_cons_inv_l in Hrest as (d' & dpost & Hd' & Hdpost & ->).
  rewrite (payload_functional _ _ _ _ Hd' Hd).
  rewrite zip_with_app by (eapply Forall2_length, Hpre).
  unfold apply_writes. rewrite foldl_app. simpl.
  fold (apply_writes (extracted st) (zip pre dpre)).
  match goal with |- foldl ?g ?m ?ws !! _ = _ =>
    change (foldl g m ws) with (apply_writes m ws) end.
  rewrite apply_writes_other by now apply zip_stems_other.
  apply lookup_insert_eq.
Qed.

(** *** What a first run prints *)

Lemma process_files_fresh raw st files datas :
  Forall2 (payload raw) files datas ->
  NoDup (stem <$> files) ->
  Forall (fun f => extracted st !! stem f = None) files ->
  process_files raw st files =
    (State (apply_writes (extracted st) (zip files datas))
           (stdout st ++ map (fun f => Extracting f (output_filename f)) files),
     Returned).
Proof.
  intros H. revert st. induction H as [|f d files datas Hd _ IH]; intros st Hnd Hnone.
  - simpl. rewrite app_nil_r. now destruct st.
  - apply NoDup_cons in Hnd as [Hf Hnd].
    apply Forall_cons in Hnone as [Hfnone Hnone].
    simpl. rewrite (process_file_returned gunzip data_raw_dir data_extracted_dir
                      _ st _ _ Hd).
    unfold exists_. rewrite bool_decide_eq_false_2
      by (rewrite Hfnone; intros [? ?]; discriminate).
    rewrite IH; [| exact Hnd |].
    + cbn [extracted stdout]. now rewrite <- app_assoc.
    + cbn [extracted]. apply Forall_forall. intros g Hg.
      rewrite lookup_insert_ne.
      * rewrite Forall_forall in Hnone. now apply Hnone.
      * intros E. apply Hf. rewrite E. apply list_elem_of_fmap. now exists g.
Qed.

(** X6. A run into an extracted directory that holds none of the output
    names, over archives with distinct names that all decompress, prints
    exactly one [Extracting] line per archive, in processing order, and
    no [Overriding] notice. *)
Theorem fresh_run_prints_one_line_per_archive raw st files datas :
  data_raw_filenames raw = inr files ->
  Forall2 (payload raw) files datas ->
  NoDup (stem <$> files) ->
  Forall (fun f => extracted st !! stem f = None) files ->
  exists st',
    extract_and_process_files raw st = (st', Returned) /\
    stdout st' =
      (stdout st ++ map (fun f => Extracting f (output_filename f)) files)%list.
Proof.
  intros Hfiles Hdatas Hnd Hnone.
  unfold Extract.extract_and_process_files. rewrite Hfiles.
  rewrite (process_files_fresh _ _ _ _ Hdatas Hnd Hnone).
  eexists. split; reflexivity.
Qed.

End Run.

(** *** The order of two archives *)

Lemma compare_common_prefix (r p q : path) :
  compare (r ++ p)%list (r ++ q)%list = compare p q.
Proof.
  induction r as [|a r IH]; [reflexivity|].
  unfold compare in *. simpl. now rewrite string_compare_refl.
Qed.

(** X7. Two archives are ordered by the name of their directory and,
    within one directory, by their file name; the raw directory's own path
    plays no role. *)
Theorem archives_order_by_directory_then_name
    (data_raw_dir : path) (d1 f1 d2 f2 : string) :
  compare (truediv (truediv data_raw_dir d1) f1)
          (truediv (truediv data_raw_dir d2) f2)
  = match String.compare d1 d2 with
    | Eq => String.compare f1 f2
    | c => c
    end.
Proof.
  unfold truediv. rewrite <- !app_assoc, compare_common_prefix.
  unfold compare. simpl.
  destruct (String.compare d1 d2); [|reflexivity..].
  now destruct (String.compare f1 f2).
Qed.

(** *** Entries that are not archives *)

Section Pruned.
Variable gunzip : bytes -> option bytes.
Variables data_raw_dir data_extracted_dir : path.

Lemma filter_names_pruned (entries : list (string * node)) :
  List.filter (fun f => endswith f ".cdf.gz")
    (map fst (List.filter (fun e => endswith (fst e) ".cdf.gz") entries))
  = List.filter (fun f => endswith f ".cdf.gz") (map fst entries).
Proof.
  induction entries as [|[nm n] entries IH]; [reflexivity|].
  simpl. destruct (endswith nm ".cdf.gz") eqn:E; simpl; rewrite ?E, IH;
    reflexivity.
Qed.

Lemma archive_paths_prune raw :
  archive_paths data_raw_dir (prune raw) = archive_paths data_raw_dir raw.
Proof.
  induction raw as [|[d n] raw IH]; [reflexivity|].
  destruct n as [c|entries]; [reflexivity|].
  cbn [prune map fst snd prune_node archive_paths listdir].
  fold (prune raw). rewrite IH, filter_names_pruned. reflexivity.
Qed.

Lemma lookup_name_prune d raw :
  lookup_name d (prune raw) = prune_node <$> lookup_name d raw.
Proof.
  unfold lookup_name. induction raw as [|[d' n] raw IH]; [reflexivity|].
  simpl. destruct (String.eqb d' d); [reflexivity|exact IH].
Qed.

Lemma lookup_name_filter fn (entries : list (string * node)) :
  endswith fn ".cdf.gz" = true ->
  lookup_name fn (List.filter (fun e => endswith (fst e) ".cdf.gz") entries)
  = lookup_name fn entries.
Proof.
  intros Hfn. unfold lookup_name.
  induction entries as [|[nm n] entries IH]; [reflexivity|].
  simpl. destruct (endswith nm ".cdf.gz") eqn:E; simpl.
  - destruct (String.eqb nm fn); [reflexivity|exact IH].
  - destruct (String.eqb_spec nm fn) as [->|_]; [congruence|exact IH].
Qed.

Lemma open_rb_prune raw d fn :
  endswith fn ".cdf.gz" = true ->
  open_rb data_raw_dir (prune raw) (truediv (truediv data_raw_dir d) fn)
  = open_rb data_raw_dir raw (truediv (truediv data_raw_dir d) fn).
Proof.
  intros Hfn. unfold open_rb, truediv.
  rewrite <- app_assoc, drop_app_length. simpl.
  rewrite lookup_name_prune.
  destruct (lookup_name d raw) as [[c|entries]|]; simpl; [reflexivity| |reflexivity].
  now rewrite lookup_name_filter.
Qed.

Lemma process_file_prune raw st d fn :
  endswith fn ".cdf.gz" = true ->
  process_file gunzip data_raw_dir data_extracted_dir (prune raw) st
    (truediv (truediv data_raw_dir d) fn)
  = process_file gunzip data_raw_dir data_extracted_dir raw st
      (truediv (truediv data_raw_dir d) fn).
Proof.
  intros Hfn. unfold process_file. now rewrite open_rb_prune.
Qed.

Lemma process_files_prune raw st files :
  Forall (fun f => exists d fn, endswith fn ".cdf.gz" = true /\
                     f = truediv (truediv data_raw_dir d) fn) files ->
  process_files gunzip data_raw_dir data_extracted_dir (prune raw) st files
  = process_files gunzip data_raw_dir data_extracted_dir raw st files.
Proof.
  intros H. revert st. induction H as [|f files (d & fn & Hfn & ->) _ IH];
    intros st; [reflexivity|].
  cbn [process_files]. rewrite process_file_prune by exact Hfn.
  destruct (process_file gunzip data_raw_dir data_extracted_dir raw st
              (truediv (truediv data_raw_dir d) fn)) as [s [|e]];
    [apply IH|reflexivity].
Qed.

(** X8. Only names ending in [.cdf.gz], one directory below the raw
    directory, matter: with every other entry of those directories
    removed, whether file or directory, the call prints, writes and ends
    the same. *)
Theorem other_entries_are_ignored raw st :
  extract_and_process_files gunzip data_raw_dir data_extracted_dir (prune raw) st
  = extract_and_process_files gunzip data_raw_dir data_extracted_dir raw st.
Proof.
  unfold extract_and_process_files, data_raw_filenames.
  rewrite archive_paths_prune.
  destruct (archive_paths data_raw_dir raw) as [e|ps] eqn:Hps; [reflexivity|].
  apply process_files_prune.
  apply archive_paths_inr in Hps as [_ ->].
  apply Forall_forall. intros f Hf. rewrite sorted_perm in Hf.
  apply elem_of_selected in Hf as (d & es & fn & _ & _ & Hfn & ->).
  eauto.
Qed.

End Pruned.

(** *** The theorems at the example trees *)

Lemma corrupt_archive_stops_the_run_witness :
  data_raw_filenames DATA_RAW_DIR raw_corrupt
    = inr ([archive_a] ++ archive_m :: [archive_z])%list /\
  exists st',
    run raw_corrupt st_old = (st', Raised (BadGzipFile archive_m)) /\
    extracted st' !! "a.cdf" = Some [Byte.x01] /\
    extracted st' !! "m.cdf" = Some [] /\
    extracted st' !! "z.cdf" = None.
Proof.
  assert (H : data_raw_filenames DATA_RAW_DIR raw_corrupt
              = inr ([archive_a] ++ archive_m :: [archive_z])%list)
    by (vm_compute; reflexivity).
  split; [exact H|].
  destruct (corrupt_archive_stops_the_run toy_gunzip DATA_RAW_DIR
              DATA_EXTRACTED_DIR raw_corrupt st_old [archive_a] [[Byte.x01]]
              archive_m [Byte.x00; Byte.x00] [archive_z] H)
    as (st' & Hrun & Hext & _).
  - repeat constructor. eexists. split; vm_compute; reflexivity.
  - vm_compute; reflexivity.
  - reflexivity.
  - exists st'. split; [exact Hrun|]. rewrite Hext.
    repeat split; vm_compute; reflexivity.
Defined.

Lemma unreadable_archive_stops_the_run_witness :
  data_raw_filenames DATA_RAW_DIR raw_directory_named_archive
    = inr ([archive_a] ++ archive_m :: [archive_z])%list /\
  exists st',
    run raw_directory_named_archive st_old
      = (st', Raised (IsADirectoryError archive_m)) /\
    extracted st' !! "m.cdf" = Some [Byte.x0d] /\
    extracted st' !! "z.cdf" = None.
Proof.
  assert (H : data_raw_filenames DATA_RAW_DIR raw_directory_named_archive
              = inr ([archive_a] ++ archive_m :: [archive_z])%list)
    by (vm_compute; reflexivity).
  split; [exact H|].
  destruct (unreadable_archive_stops_the_run toy_gunzip DATA_RAW_DIR
              DATA_EXTRACTED_DIR raw_directory_named_archive st_old
              [archive_a] [[Byte.x01]] archive_m
              (IsADirectoryError archive_m) [archive_z] H)
    as (st' & Hrun & Hext & _).
  - repeat constructor. eexists. split; vm_compute; reflexivity.
  - vm_compute; reflexivity.
  - exists st'. split; [exact Hrun|]. rewrite Hext.
    repeat split; vm_compute; reflexivity.
Defined.

Lemma other_outputs_are_untouched_witness :
  Forall (fun f => stem f <> "readme.txt") (selected DATA_RAW_DIR raw_corrupt) /\
  extracted (fst (run raw_corrupt st_old)) !! "readme.txt" = Some [Byte.x72].
Proof.
  assert (H : Forall (fun f => stem f <> "readme.txt")
                (selected DATA_RAW_DIR raw_corrupt))
    by (repeat constructor; vm_compute; discriminate).
  split; [exact H|].
  etransitivity.
  - exact (other_outputs_are_untouched toy_gunzip DATA_RAW_DIR
             DATA_EXTRACTED_DIR raw_corrupt st_old "readme.txt" H).
  - vm_compute. reflexivity.
Defined.

Lemma extract_never_removes_witness :
  is_Some (extracted st_old !! "m.cdf") /\
  is_Some (extracted (fst (run raw_with_top_level_file st_old)) !! "m.cdf").
Proof.
  assert (H : is_Some (extracted st_old !! "m.cdf")) by (vm_compute; eauto).
  split; [exact H|].
  exact (extract_never_removes toy_gunzip DATA_RAW_DIR DATA_EXTRACTED_DIR
           raw_with_top_level_file st_old "m.cdf" H).
Defined.

Lemma last_archive_of_a_name_wins_witness :
  data_raw_filenames DATA_RAW_DIR raw_same_name
    = inr ([archive_a] ++ archive_a_2012 :: [])%list /\
  exists st',
    run raw_same_name st0 = (st', Returned) /\
    extracted st' !! "a.cdf" = Some [Byte.x12].
Proof.
  assert (H : data_raw_filenames DATA_RAW_DIR raw_same_name
              = inr ([archive_a] ++ archive_a_2012 :: [])%list)
    by (vm_compute; reflexivity).
  split; [exact H|].
  apply (last_archive_of_a_name_wins toy_gunzip DATA_RAW_DIR DATA_EXTRACTED_DIR
           raw_same_name st0 [archive_a] archive_a_2012 []
           [[Byte.x11]; [Byte.x12]] [Byte.x12] H).
  - repeat constructor; eexists; split; vm_compute; reflexivity.
  - eexists; split; vm_compute; reflexivity.
  - constructor.
Defined.

Lemma fresh_run_prints_one_line_per_archive_witness :
  data_raw_filenames DATA_RAW_DIR raw_ok = inr files_ok /\
  exists st',
    run raw_ok st0 = (st', Returned) /\
    stdout st' =
      [ Extracting archive_a (truediv DATA_EXTRACTED_DIR "a.cdf");
        Extracting archive_z (truediv DATA_EXTRACTED_DIR "z.cdf");
        Extracting archive_b (truediv DATA_EXTRACTED_DIR "b.cdf") ].
Proof.
  assert (H : data_raw_filenames DATA_RAW_DIR raw_ok = inr files_ok)
    by (vm_compute; reflexivity).
  split; [exact H|].
  apply (fresh_run_prints_one_line_per_archive toy_gunzip DATA_RAW_DIR
           DATA_EXTRACTED_DIR raw_ok st0 files_ok
           [[Byte.x01]; [Byte.x03]; [Byte.x02]] H).
  - repeat constructor; eexists; split; vm_compute; reflexivity.
  - vm_compute. repeat constructor; rewrite ?elem_of_cons, ?elem_of_nil;
      intuition discriminate.
  - repeat constructor.
Defined.

End ExtractEdgeFacts.

(** * The ingest cells *)

Module IngestFacts.
Import PurePath Handlers Ingest.

Lemma getitem_from_end {A : Type} (l : list A) (n : nat) :
  (0 < n)%nat ->
  getitem l (- Z.of_nat n) =
  if (n <=? List.length l)%nat then
    match l !! (List.length l - n)%nat with
    | Some a => inr a
    | None => inl IndexError
    end
  else inl IndexError.
Proof.
  intros Hn. unfold getitem. cbv zeta.
  assert ((- Z.of_nat n <? 0) = true) as -> by (apply Z.ltb_lt; lia).
  destruct (Nat.leb_spec n (List.length l)) as [Hle|Hgt].
  - assert ((0 <=? - Z.of_nat n + Z.of_nat (List.length l)) = true) as ->
      by (apply Z.leb_le; lia).
    assert ((- Z.of_nat n + Z.of_nat (List.length l) <? Z.of_nat (List.length l))
            = true) as -> by (apply Z.ltb_lt; lia).
    simpl.
    replace (Z.to_nat (- Z.of_nat n + Z.of_nat (List.length l)))
      with (List.length l - n)%nat by lia.
    reflexivity.
  - assert ((0 <=? - Z.of_nat n + Z.of_nat (List.length l)) = false) as ->
      by (apply Z.leb_gt; lia).
    reflexivity.
Qed.

Lemma getitem_minus_10_short {A : Type} (l : list A) :
  (List.length l < 10)%nat -> getitem l (-10) = inl IndexError.
Proof.
  intros H. change (-10) with (- Z.of_nat 10).
  rewrite getitem_from_end by lia.
  destruct (Nat.leb_spec 10 (List.length l)); [lia|reflexivity].
Qed.

Lemma getitem_minus_10 {A : Type} (l : list A) (a : A) :
  l !! (List.length l - 10)%nat = Some a -> (10 <= List.length l)%nat ->
  getitem l (-10) = inr a.
Proof.
  intros Ha H. change (-10) with (- Z.of_nat 10).
  rewrite getitem_from_end by lia.
  destruct (Nat.leb_spec 10 (List.length l)); [|lia]. now rewrite Ha.
Qed.

(** X10. The IREM notebook reports on [cdfs[-10]], the tenth handle from
    the end of the date-filtered read of option 3.  With fewer than ten
    handles the cell raises [IndexError] and the run stops there: the
    three counts have been printed and no table is built.  With ten or
    more, the report of that handle is printed and the table is converted
    from the handles of option 3. *)
Theorem exploring_needs_ten_cdfs
    (read_dir : path -> option (date * date) -> exn + list cdf_file)
    (read_paths : list path -> exn + list cdf_file)
    (get_paths : path -> date -> date -> exn + list path)
    (convert : list cdf_file -> exn + table)
    (c1 c2 c3 : list cdf_file) (ps : list path) :
  read_dir IREM_EXTRACTED None = inr c1 ->
  get_paths IREM_EXTRACTED irem_from irem_to = inr ps ->
  read_paths ps = inr c2 ->
  read_dir IREM_EXTRACTED (Some (irem_from, irem_to)) = inr c3 ->
  let run := run_statements (irem_ingest read_dir read_paths get_paths convert)
               irem_fresh in
  let counts := [ PrintInt (Z.of_nat (List.length c1));
                  PrintInt (Z.of_nat (List.length c2));
                  PrintInt (Z.of_nat (List.length c3)) ] in
  ((List.length c3 < 10)%nat ->
     run = (IremKernel (Some c3) (Some ps) None counts, Raised IndexError)) /\
  (forall c t,
     (10 <= List.length c3)%nat ->
     c3 !! (List.length c3 - 10)%nat = Some c ->
     convert c3 = inr t ->
     run = (IremKernel (Some c3) (Some ps) (Some t)
              (counts ++ print_cdf_report c ++ [PrintTable t]),
            Completed)).
Proof.
  intros H1 Hps H2 H3. cbv zeta.
  unfold irem_ingest, irem_option_1, irem_option_2, irem_option_3,
    irem_exploring, irem_convert, print_len_cdfs, irem_put, irem_fresh.
  cbn [app run_statements]. rewrite H1.
  cbn [bind lookup_variable cdfs paths df irem_printed app]. rewrite Hps.
  cbn [bind lookup_variable cdfs paths df irem_printed app]. rewrite H2.
  cbn [bind lookup_variable cdfs paths df irem_printed app]. rewrite H3.
  cbn [bind lookup_variable cdfs paths df irem_printed app].
  split.
  - intros Hshort. now rewrite getitem_minus_10_short.
  - intros c t Hlong Hc Ht. rewrite (getitem_minus_10 _ _ Hc Hlong).
    cbn [bind lookup_variable cdfs paths df irem_printed app]. rewrite Ht.
    cbn [bind lookup_variable cdfs paths df irem_printed app].
    rewrite <- ?app_assoc. reflexivity.
Qed.

(** X11. In the RADEM notebook the table is converted from the science
    handles of option 2, read from the listed paths.  The handles of
    option 1 are overwritten by option 2, those of option 3 are bound to
    [sc_cdf] and [hk_cdf] and used for their counts only, and the
    housekeeping handles are never converted. *)
Theorem converted_table_comes_from_option_2
    (read_sc read_hk : path -> option (date * date) -> exn + list cdf_file)
    (get_sc get_hk : path -> date -> date -> exn + list path)
    (read_paths : list path -> exn + list cdf_file)
    (convert : list cdf_file -> exn + table)
    (sc1 hk1 sc2 hk2 sc3 hk3 : list cdf_file) (scp hkp : list path)
    (t : table) :
  read_sc RADEM_EXTRACTED None = inr sc1 ->
  read_hk RADEM_EXTRACTED None = inr hk1 ->
  get_sc RADEM_EXTRACTED radem_from radem_to = inr scp ->
  get_hk RADEM_EXTRACTED radem_from radem_to = inr hkp ->
  read_paths scp = inr sc2 ->
  read_paths hkp = inr hk2 ->
  read_sc RADEM_EXTRACTED (Some (radem_from, radem_to)) = inr sc3 ->
  read_hk RADEM_EXTRACTED (Some (radem_from, radem_to)) = inr hk3 ->
  convert sc2 = inr t ->
  run_statements
    (radem_ingest read_sc read_hk get_sc get_hk read_paths convert) radem_fresh
  = (RademKernel (Some sc2) (Some hk2) (Some scp) (Some hkp)
       (Some sc3) (Some hk3) (Some t)
       [ PrintInt (Z.of_nat (List.length sc1));
         PrintInt (Z.of_nat (List.length hk1));
         PrintInt (Z.of_nat (List.length sc2));
         PrintInt (Z.of_nat (List.length hk2));
         PrintInt (Z.of_nat (List.length sc3));
         PrintInt (Z.of_nat (List.length hk3));
         PrintTable t ],
     Completed).
Proof.
  intros Hsc1 Hhk1 Hscp Hhkp Hsc2 Hhk2 Hsc3 Hhk3 Ht.
  unfold radem_ingest, radem_option_1, radem_option_2, radem_option_3,
    radem_convert, print_len, radem_put, radem_fresh.
  cbn [app run_statements].
  rewrite Hsc1. cbn. rewrite Hhk1. cbn. rewrite Hscp. cbn. rewrite Hhkp. cbn.
  rewrite Hsc2. cbn. rewrite Hhk2. cbn. rewrite Hsc3. cbn. rewrite Hhk3. cbn.
  rewrite Ht. cbn. reflexivity.
Qed.

Import IngestExamples.

Lemma exploring_needs_ten_cdfs_witness :
  (List.length [counts_cdf "d2"; counts_cdf "d3"] < 10)%nat /\
  run_statements
    (irem_ingest small_read_dir small_read_paths small_get_paths small_convert)
    irem_fresh
  = (IremKernel (Some [counts_cdf "d2"; counts_cdf "d3"])
       (Some [truediv IREM_EXTRACTED "d2.cdf"; truediv IREM_EXTRACTED "d3.cdf"])
       None [PrintInt 3; PrintInt 2; PrintInt 2],
     Raised IndexError).
Proof.
  assert (H : (List.length [counts_cdf "d2"; counts_cdf "d3"] < 10)%nat)
    by (simpl; lia).
  split; [exact H|].
  exact (proj1 (exploring_needs_ten_cdfs small_read_dir small_read_paths
                  small_get_paths small_convert
                  [counts_cdf "d1"; counts_cdf "d2"; counts_cdf "d3"]
                  [counts_cdf "d2.cdf"; counts_cdf "d3.cdf"]
                  [counts_cdf "d2"; counts_cdf "d3"]
                  [truediv IREM_EXTRACTED "d2.cdf"; truediv IREM_EXTRACTED "d3.cdf"]
                  eq_refl eq_refl eq_refl eq_refl) H).
Defined.

Lemma converted_table_comes_from_option_2_witness :
  small_convert [counts_cdf "d2.cdf"; counts_cdf "d3.cdf"]
    = inr (Table ["counts"] [Row 17 [0]; Row 17 [0]]) /\
  sc_df (fst (run_statements
                (radem_ingest small_read_dir small_read_dir small_get_paths
                   small_get_paths small_read_paths small_convert)
                radem_fresh))
  = Some (Table ["counts"] [Row 17 [0]; Row 17 [0]]).
Proof.
  assert (H : small_convert [counts_cdf "d2.cdf"; counts_cdf "d3.cdf"]
              = inr (Table ["counts"] [Row 17 [0]; Row 17 [0]]))
    by reflexivity.
  split; [exact H|].
  rewrite (converted_table_comes_from_option_2 small_read_dir small_read_dir
             small_get_paths small_get_paths small_read_paths small_convert
             _ _ _ _ _ _ _ _ _
             eq_refl eq_refl eq_refl eq_refl eq_refl eq_refl eq_refl eq_refl H).
  reflexivity.
Defined.

End IngestFacts.

(** * What the HDF5 reload cell prints *)

Module ReloadFacts.
Import PurePath Handlers Pandas Notebook NotebookExamples.

Lemma py_all_labels (a b : table) (cmp : bool_frame) :
  eq_frames a b = inr cmp -> bf_columns cmp = columns b.
Proof.
  unfold eq_frames, indexed_same.
  destruct (bool_decide (index a = index b)); [|discriminate].
  destruct (bool_decide_reflect (columns a = columns b)) as [E|]; [|discriminate].
  simpl. intros [= <-]. exact E.
Qed.

(** X9. The line that the HDF5 reload cell prints does not depend on the
    values read back: [all] runs over the column labels of the frame
    [sc_df_hdf == sc_df], so whenever the reloaded table has the index and
    the column labels of the original and no label is empty, the cell
    prints [True]. *)
Theorem printed_comparison_reads_labels_only
    (disk : Type)
    (write_hdf : table -> path -> disk -> disk)
    (read_hdf : path -> disk -> table)
    (write_csv : table -> path -> disk -> disk)
    (read_csv : path -> disk -> table)
    (hdf5 csv : path) (s : kernel disk) :
  indexed_same (read_hdf hdf5 (write_hdf (sc_df s) hdf5 (files s))) (sc_df s)
    = true ->
  Forall (fun label => label <> "") (columns (sc_df s)) ->
  printed (fst (run_all (persist_and_reload write_hdf read_hdf write_csv read_csv
                           hdf5 csv) s))
  = (printed s ++ ["True"])%list.
Proof.
  intros Hsame Hlabels.
  unfold persist_and_reload, run_all, writing_to_hdf5, reading_from_hdf5,
    writing_to_csv, reading_from_csv.
  cbn [files sc_df sc_df_hdf sc_df_csv printed].
  destruct (eq_frames (read_hdf hdf5 (write_hdf (sc_df s) hdf5 (files s)))
              (sc_df s)) as [e|cmp] eqn:Hcmp.
  - unfold eq_frames in Hcmp. rewrite Hsame in Hcmp. discriminate.
  - cbn [fst printed]. do 2 f_equal.
    unfold py_all. rewrite (py_all_labels _ _ _ Hcmp).
    assert (forallb (fun label => negb (String.eqb label ""))
              (columns (sc_df s)) = true) as ->; [|reflexivity].
    apply forallb_forall. intros l Hl.
    rewrite Forall_forall in Hlabels.
    apply negb_true_iff, String.eqb_neq, Hlabels, list_elem_of_In, Hl.
Qed.

Lemma printed_comparison_reads_labels_only_witness :
  indexed_same (load_rounded RADEM_HDF5 (keep_table counts RADEM_HDF5 ∅)) counts
    = true /\
  load_rounded RADEM_HDF5 (keep_table counts RADEM_HDF5 ∅) <> counts /\
  printed (fst radem_run_rounding_hdf5) = ["True"].
Proof.
  assert (H : indexed_same
                (load_rounded RADEM_HDF5 (keep_table counts RADEM_HDF5 ∅)) counts
              = true) by (vm_compute; reflexivity).
  split; [exact H|]. split; [vm_compute; discriminate|].
  apply (printed_comparison_reads_labels_only store keep_table load_rounded
           keep_table load_rounded RADEM_HDF5 RADEM_CSV fresh H).
  repeat constructor; discriminate.
Defined.

End ReloadFacts.
